(** * Monthly weather forecaster: the fetch-and-normalise core of [main.py]

    A shallow embedding of [fetch_monthly_data] (lines 33-80 of [main.py]),
    of the cache decorator it is wrapped in and of the branch of the button
    handler that consumes its result (lines 83-117), followed by the
    properties of the written specification, each settled on the embedding.

    Python integers are [Z], Python strings are [string], the decoded JSON
    payload is the inductive type [pyval]; exceptions are values of [PyExn]
    carried by the [result] type, and the two effects of the function (the
    HTTP request and [st.error]) are threaded through an explicit [World]. *)

From Stdlib Require Import ZArith Ascii DecimalString DecimalZ SpecFloat.
From stdpp Require Import gmap strings list.

Local Open Scope Z_scope.

(** ** Exceptions and fallible computations *)

(** The exception classes that the function can meet.  Every one of them is
    a subclass of [Exception]; only [RequestException] (the root of the
    exceptions of the [requests] library) is caught by the first handler. *)
Inductive PyExn : Type :=
  | RequestException (msg : string)
  | KeyError (key : string)
  | ValueError (msg : string)
  | TypeError (msg : string)
  | AttributeError (msg : string)
  | OverflowError (msg : string).

Definition is_RequestException (e : PyExn) : bool :=
  match e with RequestException _ => true | _ => false end.

(** [str(e)]: the message of the exception; a [KeyError] prints the [repr]
    of the missing key, which for the plain ASCII keys used here is the key
    between single quotes. *)
Definition exn_str (e : PyExn) : string :=
  match e with
  | RequestException msg => msg
  | KeyError key => "'" +:+ key +:+ "'"
  | ValueError msg => msg
  | TypeError msg => msg
  | AttributeError msg => msg
  | OverflowError msg => msg
  end.

Inductive result (A : Type) : Type :=
  | Ok (a : A)
  | Raise (e : PyExn).
Arguments Ok {A} a.
Arguments Raise {A} e.

Definition rbind {A B : Type} (r : result A) (k : A -> result B) : result B :=
  match r with
  | Ok a => k a
  | Raise e => Raise e
  end.

Notation "x <-? r ; k" := (rbind r (fun x => k))
  (at level 100, r at next level, right associativity).

Fixpoint rmapM {A B : Type} (f : A -> result B) (l : list A) : result (list B) :=
  match l with
  | [] => Ok []
  | a :: l' => b <-? f a; bs <-? rmapM f l'; Ok (b :: bs)
  end.

(** ** Integers as text *)

Module PyFormat.

(** The decimal text of an integer: what [str(n)] returns, when it
    returns.  It is applied as it stands only to integers of a few digits
    (a year or a month of a [datetime], an HTTP status); [format_int] below
    is the conversion with its limit. *)
Definition str_int (n : Z) : string := NilZero.string_of_int (Z.to_int n).

(** [int(s)] on a signed decimal literal. *)
Definition int_of_str (s : string) : option Z :=
  Z.of_int <$> NilZero.int_of_string s.

Fixpoint zeros (k : nat) : string :=
  match k with
  | O => ""
  | S k' => "0" +:+ zeros k'
  end.

(** Zero padding on the left up to [width] characters. *)
Definition zfill (width : nat) (s : string) : string :=
  zeros (width - String.length s) +:+ s.

(** The format specification [0<width>d]: the sign, when there is one,
    counts in the width and goes before the zeros. *)
Definition format_0d (width : nat) (n : Z) : string :=
  if n <? 0 then "-" +:+ zfill (width - 1) (str_int (- n))
  else zfill width (str_int n).

(** The interpreter refuses to write an integer of more than 4300 digits,
    the sign not counted ([sys.int_info.default_max_str_digits]): the
    integers it writes are those below [10 ^ 4300] in absolute value. *)
Definition int_max_str_digits : Z := 4300.

Definition str_limit : Z := Eval vm_compute in 10 ^ int_max_str_digits.

Definition DIGITS_EXCEEDED : string :=
  "Exceeds the limit (4300 digits) for integer string conversion; use sys.set_int_max_str_digits() to increase the limit".

(** [f"{n}"]: the text of [n], or the [ValueError] of the limit. *)
Definition format_int (n : Z) : result string :=
  if Z.abs n <? str_limit then Ok (str_int n)
  else Raise (ValueError DIGITS_EXCEEDED).

(** [f"{n:0<width>d}"]. *)
Definition format_int_0d (width : nat) (n : Z) : result string :=
  if Z.abs n <? str_limit then Ok (format_0d width n)
  else Raise (ValueError DIGITS_EXCEEDED).

End PyFormat.

(** ** The proleptic Gregorian calendar of [datetime] *)

Module Calendar.
Import PyFormat.

Definition MINYEAR : Z := 1.
Definition MAXYEAR : Z := 9999.
Definition MAXORDINAL : Z := 3652059.

Definition DAYS_IN_MONTH : list Z :=
  [-1; 31; 28; 31; 30; 31; 30; 31; 31; 30; 31; 30; 31].
Definition DAYS_BEFORE_MONTH : list Z :=
  [-1; 0; 31; 59; 90; 120; 151; 181; 212; 243; 273; 304; 334].

Definition table (t : list Z) (i : Z) : Z := nth (Z.to_nat i) t (-1).

Definition is_leap (year : Z) : bool :=
  (year mod 4 =? 0) && (negb (year mod 100 =? 0) || (year mod 400 =? 0)).

Definition days_before_year (year : Z) : Z :=
  let y := year - 1 in
  y * 365 + y / 4 - y / 100 + y / 400.

Definition days_in_month (year month : Z) : Z :=
  if (month =? 2) && is_leap year then 29 else table DAYS_IN_MONTH month.

Definition days_before_month (year month : Z) : Z :=
  table DAYS_BEFORE_MONTH month
  + (if (2 <? month) && is_leap year then 1 else 0).

Definition ymd2ord (year month day : Z) : Z :=
  days_before_year year + days_before_month year month + day.

Definition DI400Y : Z := Eval cbv in days_before_year 401.
Definition DI100Y : Z := Eval cbv in days_before_year 101.
Definition DI4Y : Z := Eval cbv in days_before_year 5.

(** The inverse of [ymd2ord], by cycles of 400, 100, 4 and 1 years. *)
Definition ord2ymd (ordinal : Z) : Z * Z * Z :=
  let n := ordinal - 1 in
  let n400 := n / DI400Y in
  let n := n mod DI400Y in
  let year := n400 * 400 + 1 in
  let n100 := n / DI100Y in
  let n := n mod DI100Y in
  let n4 := n / DI4Y in
  let n := n mod DI4Y in
  let n1 := n / 365 in
  let n := n mod 365 in
  let year := year + n100 * 100 + n4 * 4 + n1 in
  if (n1 =? 4) || (n100 =? 4) then (year - 1, 12, 31)
  else
    let leapyear := (n1 =? 3) && (negb (n4 =? 24) || (n100 =? 3)) in
    let month := Z.shiftr (n + 50) 5 in
    let preceding :=
      table DAYS_BEFORE_MONTH month
      + (if (2 <? month) && leapyear then 1 else 0) in
    if n <? preceding then
      let month := month - 1 in
      let preceding :=
        preceding
        - (table DAYS_IN_MONTH month
           + (if (month =? 2) && leapyear then 1 else 0)) in
      (year, month, n - preceding + 1)
    else (year, month, n - preceding + 1).

(** A [datetime] at midnight: the function never sets a time of day, and
    adding whole days leaves it untouched. *)
Record datetime : Type := mk_datetime { year : Z; month : Z; day : Z }.

(** An argument of the constructor is first converted to a C [int]: an
    integer that does not fit in a C [long] (64 bits) or in a C [int]
    (32 bits) raises [OverflowError]. *)
Definition c_int (v : Z) : result Z :=
  if (v <? - 2 ^ 63) || (2 ^ 63 <=? v) then
    Raise (OverflowError "Python int too large to convert to C long")
  else if 2 ^ 31 <=? v then
    Raise (OverflowError "signed integer is greater than maximum")
  else if v <? - 2 ^ 31 then
    Raise (OverflowError "signed integer is less than minimum")
  else Ok v.

(** The constructor [datetime(year, month, day)]: the three arguments are
    converted, then the range checks are made. *)
Definition new (y m d : Z) : result datetime :=
  y <-? c_int y;
  m <-? c_int m;
  d <-? c_int d;
  if negb ((MINYEAR <=? y) && (y <=? MAXYEAR)) then
    Raise (ValueError ("year " +:+ str_int y +:+ " is out of range"))
  else if negb ((1 <=? m) && (m <=? 12)) then
    Raise (ValueError "month must be in 1..12")
  else if negb ((1 <=? d) && (d <=? days_in_month y m)) then
    Raise (ValueError "day is out of range for month")
  else Ok (mk_datetime y m d).

Definition toordinal (t : datetime) : Z := ymd2ord (year t) (month t) (day t).

(** [t - timedelta(days=n)]. *)
Definition sub_days (t : datetime) (n : Z) : result datetime :=
  let days := toordinal t - n in
  if (0 <? days) && (days <=? MAXORDINAL) then
    let '(y, m, d) := ord2ymd days in Ok (mk_datetime y m d)
  else Raise (OverflowError "date value out of range").

(** [t.strftime("%Y-%m-%d")].  The directive [%Y] is that of the C
    library, which on Linux writes the year without padding: a year below
    1000 has fewer than four digits.  (Later versions of the interpreter
    pad it with zeros; from the year 1000 on the two agree.) *)
Definition strftime_ymd (t : datetime) : string :=
  str_int (year t) +:+ "-" +:+ zfill 2 (str_int (month t))
  +:+ "-" +:+ zfill 2 (str_int (day t)).

End Calendar.

(** ** Range resolution: lines 36-41 *)

Record DateRange : Type := mk_range { start_date : string; end_date : string }.

Definition resolve (year month : Z) : result DateRange :=
  start_date <-?
    (y <-? PyFormat.format_int year;
     m <-? PyFormat.format_int_0d 2 month;
     Ok (y +:+ "-" +:+ m +:+ "-01"));
  end_date <-?
    (if month =? 12 then
       y <-? PyFormat.format_int year;
       Ok (y +:+ "-12-31")
     else
       first <-? Calendar.new year (month + 1) 1;
       last <-? Calendar.sub_days first 1;
       Ok (Calendar.strftime_ymd last));
  Ok (mk_range start_date end_date).

(** ** The decoded JSON payload and the Python operations applied to it *)

#[local] Set Warnings "-register-all".

(** What [response.json()] can return.  A [dict] is the list of its items
    in insertion order (the keys of a decoded JSON object are distinct, and
    [dict_lookup] takes the first binding of a key). *)
Inductive pyval : Type :=
  | PNone
  | PBool (b : bool)
  | PInt (n : Z)
  | PFloat (x : spec_float)
  | PStr (s : string)
  | PList (items : list pyval)
  | PDict (items : list (string * pyval)).

Fixpoint dict_lookup {A : Type} (key : string) (items : list (string * A)) : option A :=
  match items with
  | [] => None
  | (k, v) :: items' => if String.eqb k key then Some v else dict_lookup key items'
  end.

Definition type_name (v : pyval) : string :=
  match v with
  | PNone => "NoneType"
  | PBool _ => "bool"
  | PInt _ => "int"
  | PFloat _ => "float"
  | PStr _ => "str"
  | PList _ => "list"
  | PDict _ => "dict"
  end.

Definition is_str (key : string) (v : pyval) : bool :=
  match v with PStr s => String.eqb s key | _ => false end.

Definition is_substring (needle s : string) : bool :=
  match String.index 0 needle s with Some _ => true | None => false end.

(** [key in v] for a string [key]. *)
Definition py_contains (key : string) (v : pyval) : result bool :=
  match v with
  | PDict items => Ok (bool_decide (is_Some (dict_lookup key items)))
  | PList items => Ok (existsb (is_str key) items)
  | PStr s => Ok (is_substring key s)
  | _ => Raise (TypeError ("argument of type '" +:+ type_name v +:+ "' is not iterable"))
  end.

(** [v[key]] for a string [key]. *)
Definition py_getitem (v : pyval) (key : string) : result pyval :=
  match v with
  | PDict items =>
      match dict_lookup key items with
      | Some x => Ok x
      | None => Raise (KeyError key)
      end
  | PList _ => Raise (TypeError "list indices must be integers or slices, not str")
  | PStr _ => Raise (TypeError "string indices must be integers, not 'str'")
  | _ => Raise (TypeError ("'" +:+ type_name v +:+ "' object is not subscriptable"))
  end.

(** [v.get(key, default)]. *)
Definition py_get (v : pyval) (key : string) (dflt : pyval) : result pyval :=
  match v with
  | PDict items => Ok (default dflt (dict_lookup key items))
  | _ => Raise (AttributeError ("'" +:+ type_name v +:+ "' object has no attribute 'get'"))
  end.

Fixpoint chars (s : string) : list pyval :=
  match s with
  | EmptyString => []
  | String c s' => PStr (String c EmptyString) :: chars s'
  end.

(** The items that [for day in v] goes through. *)
Definition py_iter (v : pyval) : result (list pyval) :=
  match v with
  | PList items => Ok items
  | PDict items => Ok (map (fun kv => PStr (fst kv)) items)
  | PStr s => Ok (chars s)
  | _ => Raise (TypeError ("'" +:+ type_name v +:+ "' object is not iterable"))
  end.

(** ** The libraries behind the function *)

(** What a column of a frame holds in one position: a Python object (in a
    column of dtype [object]), a 64-bit integer, a double (the missing
    number [NaN] is one of them), a boolean, a timestamp, or the missing
    timestamp [NaT].  [T] is the type of the timestamps. *)
Inductive cell (T : Type) : Type :=
  | Obj (v : pyval)
  | Int64 (n : Z)
  | Float64 (x : spec_float)
  | Bool (b : bool)
  | Stamp (t : T)
  | NaT.
Arguments Obj {T} v.
Arguments Int64 {T} n.
Arguments Float64 {T} x.
Arguments Bool {T} b.
Arguments Stamp {T} t.
Arguments NaT {T}.

(** Three behaviours of the libraries are left as parameters.

    - How [pandas] stores the values of a column: one dtype is inferred
      from all the values of the column, and every value is stored in that
      dtype (next to a null, an integer becomes a double and the null
      becomes [NaN]).
    - How [pd.to_datetime] reads a column: it looks at the whole column
      (one format is inferred for all its texts), and either raises or
      returns a column over the same index, in which a position that holds
      no date is [NaT].
    - How Python prints a value that is neither a string, an integer, a
      boolean nor [None] (a float, a list, a dict), or the exception that
      printing it raises (a list may hold an integer of too many digits). *)
Class Libraries : Type := {
  Timestamp : Type;
  Dtype : Type;
  infer_dtype : list pyval -> Dtype;
  convert : Dtype -> pyval -> cell Timestamp;
  to_datetime : list (cell Timestamp) -> result (list (option Timestamp));
  to_datetime_length :
    forall series stamps,
      to_datetime series = Ok stamps -> length stamps = length series;
  repr_other : pyval -> result string
}.

Section Program.
Context `{Libraries}.

(** [str(v)], as an f-string applies it. *)
Definition py_str (v : pyval) : result string :=
  match v with
  | PStr s => Ok s
  | PNone => Ok "None"
  | PBool true => Ok "True"
  | PBool false => Ok "False"
  | PInt n => PyFormat.format_int n
  | _ => repr_other v
  end.

(** *** Data frames *)

(** A frame is its index length and its columns, in order. *)
Record DataFrame : Type := mk_frame {
  index_len : nat;
  columns : list (string * list (cell Timestamp))
}.

Definition add_key (seen : list string) (key : string) : list string :=
  if bool_decide (key ∈ seen) then seen else seen ++ [key].

(** The column labels of [pd.DataFrame(records)]: the keys of the records
    in the order in which they are first met. *)
Definition frame_labels (records : list (list (string * pyval))) : list string :=
  foldl (fun seen record => foldl add_key seen (map fst record)) [] records.

(** The values found under a label in the records, in the order of the
    records; a record without the label gives the float [nan]. *)
Definition label_values (label : string) (records : list (list (string * pyval)))
    : list pyval :=
  map (fun record => default (PFloat S754_nan) (dict_lookup label record)) records.

(** A column made of Python values: one dtype for the column, and every
    value stored in it, position by position. *)
Definition pd_Series (values : list pyval) : list (cell Timestamp) :=
  map (convert (infer_dtype values)) values.

(** [pd.DataFrame(records)] on a list of dicts: one row per record and one
    column per label. *)
Definition pd_DataFrame (records : list (list (string * pyval))) : DataFrame :=
  mk_frame (length records)
    (map (fun label => (label, pd_Series (label_values label records)))
       (frame_labels records)).

(** [df[label]]. *)
Definition df_getitem (df : DataFrame) (label : string)
    : result (list (cell Timestamp)) :=
  match dict_lookup label (columns df) with
  | Some series => Ok series
  | None => Raise (KeyError label)
  end.

Fixpoint replace_column (label : string) (series : list (cell Timestamp))
    (cols : list (string * list (cell Timestamp)))
    : list (string * list (cell Timestamp)) :=
  match cols with
  | [] => [(label, series)]
  | (l, c) :: cols' =>
      if String.eqb l label then (l, series) :: cols'
      else (l, c) :: replace_column label series cols'
  end.

(** [df[label] = series], for a series over the index of [df]. *)
Definition df_setitem (df : DataFrame) (label : string)
    (series : list (cell Timestamp)) : DataFrame :=
  mk_frame (index_len df) (replace_column label series (columns df)).

(** [df.empty]: one of the two axes has length zero. *)
Definition df_empty (df : DataFrame) : bool :=
  bool_decide (index_len df = 0%nat) || bool_decide (columns df = []).

Definition stamp_cell (stamp : option Timestamp) : cell Timestamp :=
  match stamp with
  | Some t => Stamp t
  | None => NaT
  end.

(** [pd.to_datetime(series)]: the column of what was read, or the
    exception of the library. *)
Definition pd_to_datetime (series : list (cell Timestamp))
    : result (list (cell Timestamp)) :=
  stamps <-? to_datetime series;
  Ok (map stamp_cell stamps).

(** *** The outside world *)

Inductive Method : Type := GET.

Record Request : Type := mk_request {
  method : Method;
  url : string;
  params : list (string * string);
  timeout : Z
}.

(** What [requests.get] hands back when it returns: the status line, the
    final URL and the outcome of decoding the body as JSON. *)
Record Response : Type := mk_response {
  status_code : Z;
  reason : string;
  response_url : string;
  json : result pyval
}.

(** The requests sent so far and the messages shown by [st.error]. *)
Record World : Type := mk_world {
  sent : list Request;
  shown : list string
}.

(** The network: what the [n]-th request of the run meets, either an
    exception of [requests.get] or a response. *)
Definition Network : Type := nat -> Request -> result Response.

(** Computations that act on the world and may raise. *)
Definition M (A : Type) : Type := World -> result A * World.

Definition ret {A : Type} (a : A) : M A := fun w => (Ok a, w).

Definition bind {A B : Type} (m : M A) (k : A -> M B) : M B :=
  fun w =>
    match m w with
    | (Ok a, w') => k a w'
    | (Raise e, w') => (Raise e, w')
    end.

Definition lift {A : Type} (r : result A) : M A := fun w => (r, w).

(** [try: body except Exception as e: handler(e)]. *)
Definition try_except {A : Type} (body : M A) (handler : PyExn -> M A) : M A :=
  fun w =>
    match body w with
    | (Ok a, w') => (Ok a, w')
    | (Raise e, w') => handler e w'
    end.

Definition requests_get (net : Network) (req : Request) : M Response :=
  fun w => (net (length (sent w)) req, mk_world (sent w ++ [req]) (shown w)).

Definition st_error (msg : string) : M unit :=
  fun w => (Ok tt, mk_world (sent w) (shown w ++ [msg])).

(** The text of the [HTTPError] that a response calls for, if any: the
    statuses in the 400s and in the 500s, and no other. *)
Definition http_error_msg (r : Response) : option string :=
  let code := status_code r in
  if (400 <=? code) && (code <? 500) then
    Some (PyFormat.str_int code +:+ " Client Error: " +:+ reason r
          +:+ " for url: " +:+ response_url r)
  else if (500 <=? code) && (code <? 600) then
    Some (PyFormat.str_int code +:+ " Server Error: " +:+ reason r
          +:+ " for url: " +:+ response_url r)
  else None.

(** [response.raise_for_status()]. *)
Definition raise_for_status (r : Response) : result unit :=
  match http_error_msg r with
  | Some msg => Raise (RequestException msg)
  | None => Ok tt
  end.

End Program.

Notation "x <- m ;; k" := (bind m (fun x => k))
  (at level 100, m at next level, right associativity).
Notation "m ;;; k" := (bind m (fun _ => k))
  (at level 100, right associativity).

(** ** [fetch_monthly_data]: lines 33-80 *)

Section Fetch.
Context `{Libraries}.
Variable net : Network.

Definition TIMELINE : string :=
  "https://weather.visualcrossing.com/VisualCrossingWebServices/rest/services/timeline/".

Definition ELEMENTS : string := "datetime,tempmax,tempmin,temp,conditions,precip".

(** Lines 43-53: the request that is handed to [requests.get]. *)
Definition build_request (city : string) (range : DateRange) (api_key : string) : Request :=
  mk_request GET
    (TIMELINE +:+ city +:+ "/" +:+ start_date range +:+ "/" +:+ end_date range)
    [("key", api_key); ("include", "days"); ("unitGroup", "metric");
     ("contentType", "json"); ("elements", ELEMENTS)]
    10.

(** Lines 62-69: the dict appended for one entry of [data["days"]]. *)
Definition day_row (day : pyval) : result (list (string * pyval)) :=
  date <-? py_getitem day "datetime";
  tempmax <-? py_getitem day "tempmax";
  tempmin <-? py_getitem day "tempmin";
  temp <-? py_getitem day "temp";
  conditions <-? py_getitem day "conditions";
  precip <-? py_get day "precip" (PInt 0);
  Ok [("Date", date); ("Max Temp (°C)", tempmax); ("Min Temp (°C)", tempmin);
      ("Avg Temp (°C)", temp); ("Conditions", conditions); ("Precip (mm)", precip)].

(** Lines 57-73: from the decoded payload to the frame. *)
Definition normalize (data : pyval) : result DataFrame :=
  has_days <-? py_contains "days" data;
  if negb has_days then
    message <-? py_get data "message" (PStr "Invalid response");
    text <-? py_str message;
    Raise (ValueError ("API Error: " +:+ text))
  else
    days <-? py_getitem data "days";
    entries <-? py_iter days;
    days_data <-? rmapM day_row entries;
    let df := pd_DataFrame days_data in
    dates <-? df_getitem df "Date";
    stamps <-? pd_to_datetime dates;
    Ok (df_setitem df "Date" stamps).

(** Lines 53-73: the body of the [try]. *)
Definition try_body (req : Request) : M (option DataFrame) :=
  response <- requests_get net req ;;
  (lift (raise_for_status response) ;;;
   (data <- lift (json response) ;;
    (df <- lift (normalize data) ;;
     ret (Some df)))).

(** Lines 75-80: the two handlers. *)
Definition on_exception (e : PyExn) : M (option DataFrame) :=
  if is_RequestException e then
    (st_error ("API Request Failed: " +:+ exn_str e +:+ ". Check city name or API key.") ;;;
     ret None)
  else
    (st_error ("Unexpected Error: " +:+ exn_str e) ;;;
     ret None).

(** The function without its decorator.  The range is resolved before
    the [try] is entered, so an exception raised there leaves the
    function. *)
Definition fetch_monthly_data (city : string) (year month : Z) (api_key : string)
    : M (option DataFrame) :=
  range <- lift (resolve year month) ;;
  try_except (try_body (build_request city range api_key)) on_exception.

(** *** [st.cache_data(ttl=3600)]: line 33

    The decorator keeps, for each tuple of arguments, the value that the
    function returned and serves it again until 3600 seconds have passed
    since it was stored.  Time is the reading of the timer of the cache,
    taken once per call. *)

Definition TTL : Z := 3600.

(** An entry keeps the returned value, the time at which it was stored and
    the messages shown while it was computed, which are shown again when
    the entry is served. *)
Record CacheEntry : Type := mk_entry {
  stored_at : Z;
  cached_value : option DataFrame;
  cached_messages : list string
}.

(** The key of an entry: the four arguments of the call. *)
Abbreviation CacheKey := (string * Z * Z * string)%type.

Record Session : Type := mk_session {
  world : World;
  cache : gmap CacheKey CacheEntry
}.

(** The entry of a key that is still alive at time [now]. *)
Definition live_entry (s : Session) (key : CacheKey) (now : Z) : option CacheEntry :=
  match cache s !! key with
  | Some entry => if now <? stored_at entry + TTL then Some entry else None
  | None => None
  end.

(** The decorated function, called when the timer of the cache reads
    [now].  A value that is returned is stored, an exception is not. *)
Definition cached_fetch_monthly_data (now : Z)
    (city : string) (year month : Z) (api_key : string)
    (s : Session) : result (option DataFrame) * Session :=
  let key : CacheKey := (city, year, month, api_key) in
  match live_entry s key now with
  | Some entry =>
      (Ok (cached_value entry),
       mk_session
         (mk_world (sent (world s)) (shown (world s) ++ cached_messages entry))
         (cache s))
  | None =>
      match fetch_monthly_data city year month api_key (world s) with
      | (Ok value, w') =>
          let messages := drop (length (shown (world s))) (shown w') in
          (Ok value, mk_session w' (<[key := mk_entry now value messages]> (cache s)))
      | (Raise e, w') => (Raise e, mk_session w' (cache s))
      end
  end.

(** *** The button handler: lines 83-117 *)

(** What the widgets of lines 28-30 can supply: a year from 2020 to 2030
    and a month from 1 to 12. *)
Definition widget_inputs (year month : Z) : Prop :=
  2020 <= year <= 2030 /\ 1 <= month <= 12.

Inductive Page : Type :=
  | Rendered (month_name : string) (df : DataFrame)
  | Stopped.

Definition MONTH_NAMES : list string :=
  [""; "January"; "February"; "March"; "April"; "May"; "June"; "July";
   "August"; "September"; "October"; "November"; "December"].

(** [t.strftime("%B %Y")], the year written as [strftime_ymd] writes it. *)
Definition strftime_BY (t : Calendar.datetime) : string :=
  nth (Z.to_nat (Calendar.month t)) MONTH_NAMES ""
  +:+ " " +:+ PyFormat.str_int (Calendar.year t).

(** Lines 87-117: the branch taken for a result of the fetch.  Of the page
    that is drawn only the month name and the table are kept. *)
Definition present (year month : Z) (df : option DataFrame) : result Page :=
  match df with
  | Some d =>
      if negb (df_empty d) then
        first <-? Calendar.new year month 1;
        Ok (Rendered (strftime_BY first) d)
      else Ok Stopped
  | None => Ok Stopped
  end.

Definition fetch_button (now : Z) (city : string) (year month : Z) (api_key : string)
    (s : Session) : result Page * Session :=
  match cached_fetch_monthly_data now city year month api_key s with
  | (Ok df, s') => (present year month df, s')
  | (Raise e, s') => (Raise e, s')
  end.

End Fetch.

(** ** The month selector: lines 30-31 *)

(** [t.strftime("%B")]. *)
Definition strftime_B (t : Calendar.datetime) : string :=
  nth (Z.to_nat (Calendar.month t)) MONTH_NAMES "".

(** The [format_func] of the selector: the label shown for an option. *)
Definition month_label (x : Z) : result string :=
  first <-? Calendar.new 2023 x 1;
  Ok (strftime_B first).

(** ** The credential: lines 8-18 *)

(** [bool(v)]: what [not v] tests. *)
Definition py_truthy (v : pyval) : bool :=
  match v with
  | PNone => false
  | PBool b => b
  | PInt n => negb (n =? 0)
  | PFloat (S754_zero _) => false
  | PFloat _ => true
  | PStr s => negb (String.eqb s "")
  | PList [] => false
  | PList _ => true
  | PDict [] => false
  | PDict _ => true
  end.

(** What the script finds when it starts: the secrets store (or the
    exception raised while loading it), the environment of the process and
    the text that stands in the sidebar input. *)
Record Deployment : Type := mk_deployment {
  secrets : result (list (string * pyval));
  environ : list (string * string);
  sidebar_text : string
}.

Inductive Element : Type :=
  | SidebarHeader (text : string)
  | SidebarTextInput (label : string)
  | WarningBox (text : string).

Inductive Startup : Type :=
  | Continue (api_key : pyval)
  | Halt.

(** [os.getenv(name)]. *)
Definition os_getenv (env : list (string * string)) (name : string) : pyval :=
  match dict_lookup name env with
  | Some s => PStr s
  | None => PNone
  end.

(** Lines 9-18: the key with which the script goes on, or [st.stop()],
    together with the elements drawn on the way. *)
Definition startup (d : Deployment) : result Startup * list Element :=
  match secrets d with
  | Raise e => (Raise e, [])
  | Ok store =>
      let api_key :=
        default (os_getenv (environ d) "WEATHER_API_KEY")
                (dict_lookup "WEATHER_API_KEY" store) in
      if negb (py_truthy api_key) then
        let drawn := [SidebarHeader "Dev: API Setup";
                      SidebarTextInput "Visual Crossing API Key"] in
        let api_key := PStr (sidebar_text d) in
        if negb (py_truthy api_key) then
          (Ok Halt,
           drawn ++ [WarningBox
                       "Please set your API key via secrets/env or sidebar (dev only)."])
        else (Ok (Continue api_key), drawn)
      else (Ok (Continue api_key), [])
  end.

(** ** Reading a date back from its text *)

Module DateText.
Import PyFormat.

Definition is_digit (c : ascii) : bool :=
  (48 <=? Z.of_nat (nat_of_ascii c)) && (Z.of_nat (nat_of_ascii c) <=? 57).

Fixpoint all_digits (s : string) : bool :=
  match s with
  | EmptyString => true
  | String c s' => is_digit c && all_digits s'
  end.

(** The last six characters are [-MM-DD]; what precedes them is the year,
    of any width and possibly signed. *)
Definition read_date (s : string) : option (Z * Z * Z) :=
  let n := String.length s in
  let ms := String.substring (n - 5) 2 s in
  let ds := String.substring (n - 2) 2 s in
  if bool_decide (6 <= n)%nat
     && String.eqb (String.substring (n - 6) 1 s) "-"
     && String.eqb (String.substring (n - 3) 1 s) "-"
     && all_digits ms && all_digits ds
  then
    y ← int_of_str (String.substring 0 (n - 6) s);
    m ← int_of_str ms;
    d ← int_of_str ds;
    Some (y, m, d)
  else None.

(** The shape [YYYY-MM-DD]: ten characters, digits around two hyphens. *)
Definition is_yyyy_mm_dd (s : string) : bool :=
  bool_decide (String.length s = 10%nat)
  && all_digits (String.substring 0 4 s)
  && String.eqb (String.substring 4 1 s) "-"
  && all_digits (String.substring 5 2 s)
  && String.eqb (String.substring 7 1 s) "-"
  && all_digits (String.substring 8 2 s).

(** The text [YYYY-MM-DD] of a date. *)
Definition yyyy_mm_dd (y m d : Z) : string :=
  zfill 4 (str_int y) +:+ "-" +:+ zfill 2 (str_int m) +:+ "-" +:+ zfill 2 (str_int d).

End DateText.

(** ** The Gregorian calendar in the words of the specification *)

Module Gregorian.

Definition leap_year (y : Z) : bool :=
  ((y mod 4 =? 0) && negb (y mod 100 =? 0)) || (y mod 400 =? 0).

(** The number of days of a month, 28 to 31. *)
Definition month_length (y m : Z) : Z :=
  if m =? 2 then (if leap_year y then 29 else 28)
  else if (m =? 4) || (m =? 6) || (m =? 9) || (m =? 11) then 30
  else 31.

(** The calendar date that follows a date. *)
Definition day_after (date : Z * Z * Z) : Z * Z * Z :=
  let '(y, m, d) := date in
  if d <? month_length y m then (y, m, d + 1)
  else if m <? 12 then (y, m + 1, 1)
  else (y + 1, 1, 1).

End Gregorian.

(** ** A runtime for running the model

    A small part of the rules of [pandas], enough for the payloads that
    the provider sends.  A column of integers that fit in 64 bits is stored
    as integers, a column of booleans as booleans, a column of numbers and
    nulls with at least one number as doubles (a null becoming [NaN]), and
    any other column as Python objects.  Dates are read in the one form
    [YYYY-MM-DD], within the years that a timestamp in nanoseconds can hold;
    a null is read as [NaT].  A value that has no plain text is printed as
    its type between angle brackets. *)

Inductive SmallDtype : Type := DObject | DInt64 | DFloat64 | DBool.

Definition is_int64 (v : pyval) : bool :=
  match v with
  | PInt n => (- 2 ^ 63 <=? n) && (n <? 2 ^ 63)
  | _ => false
  end.

Definition is_float (v : pyval) : bool :=
  match v with PFloat _ => true | _ => false end.

Definition is_bool (v : pyval) : bool :=
  match v with PBool _ => true | _ => false end.

Definition is_none (v : pyval) : bool :=
  match v with PNone => true | _ => false end.

Definition small_infer (values : list pyval) : SmallDtype :=
  match values with
  | [] => DObject
  | _ =>
      if forallb is_int64 values then DInt64
      else if forallb is_bool values then DBool
      else if forallb (fun v => is_int64 v || is_float v || is_none v) values
              && existsb (fun v => is_int64 v || is_float v) values
      then DFloat64
      else DObject
  end.

Definition small_convert (dtype : SmallDtype) (v : pyval) : cell Calendar.datetime :=
  match dtype, v with
  | DInt64, PInt n => Int64 n
  | DBool, PBool b => Bool b
  | DFloat64, PInt n => Float64 (binary_normalize 53 1024 n 0 false)
  | DFloat64, PFloat x => Float64 x
  | DFloat64, PNone => Float64 S754_nan
  | _, _ => Obj v
  end.

Definition iso_date (s : string) : result Calendar.datetime :=
  match DateText.read_date s with
  | Some (y, m, d) =>
      if DateText.is_yyyy_mm_dd s then
        t <-? Calendar.new y m d;
        if (1678 <=? y) && (y <=? 2261) then Ok t
        else Raise (ValueError ("Out of bounds nanosecond timestamp: " +:+ s))
      else Raise (ValueError ("time data doesn't match format %Y-%m-%d: " +:+ s))
  | None => Raise (ValueError ("Unknown datetime string format, unable to parse: " +:+ s))
  end.

Definition iso_stamp (c : cell Calendar.datetime) : result (option Calendar.datetime) :=
  match c with
  | Obj (PStr s) => t <-? iso_date s; Ok (Some t)
  | Obj PNone => Ok None
  | Float64 S754_nan => Ok None
  | Stamp t => Ok (Some t)
  | NaT => Ok None
  | _ => Raise (TypeError "the column is not convertible to datetime")
  end.

#[export, refine] Instance iso_runtime : Libraries := {
  Timestamp := Calendar.datetime;
  Dtype := SmallDtype;
  infer_dtype := small_infer;
  convert := small_convert;
  to_datetime := rmapM iso_stamp;
  repr_other := fun v => Ok ("<" +:+ type_name v +:+ ">")
}.
Proof.
  induction series as [|c series IH]; simpl; intros stamps Hs.
  - now injection Hs as <-.
  - destruct (iso_stamp c); [|discriminate]. simpl in Hs.
    destruct (rmapM iso_stamp series) as [rest|]; [|discriminate].
    simpl in Hs. injection Hs as <-. simpl. f_equal. now apply IH.
Defined.

(** A network that answers every request with status 200 and [payload]. *)
Definition serve (payload : pyval) : Network :=
  fun _ _ => Ok (mk_response 200 "OK" "" (Ok payload)).

(** A network that answers with the given status and [payload]. *)
Definition serve_status (code : Z) (payload : pyval) : Network :=
  fun _ _ => Ok (mk_response code "" "" (Ok payload)).

(** A network on which every request fails with [e]. *)
Definition refuse (e : PyExn) : Network := fun _ _ => Raise e.

Definition empty_world : World := mk_world [] [].

Definition day_entry (date : string) (precip : option pyval) : pyval :=
  PDict ([("datetime", PStr date); ("tempmax", PInt 31); ("tempmin", PInt 24);
          ("temp", PInt 27); ("conditions", PStr "Rain")]
         ++ match precip with Some v => [("precip", v)] | None => [] end).

(** ** Vocabulary of the statements *)

(** The value of a field of a JSON object; a value that is not an object has
    no fields. *)
Definition field (key : string) (v : pyval) : option pyval :=
  match v with
  | PDict items => dict_lookup key items
  | _ => None
  end.

(** The fields that an entry of [days] must hold. *)
Definition REQUIRED : list string :=
  ["datetime"; "tempmax"; "tempmin"; "temp"; "conditions"].

Definition has_required (entry : pyval) : Prop :=
  Forall (fun key => is_Some (field key entry)) REQUIRED.

(** The row that the loop appends for an entry. *)
Definition row_of (entry : pyval) : list (string * pyval) :=
  [("Date", default PNone (field "datetime" entry));
   ("Max Temp (°C)", default PNone (field "tempmax" entry));
   ("Min Temp (°C)", default PNone (field "tempmin" entry));
   ("Avg Temp (°C)", default PNone (field "temp" entry));
   ("Conditions", default PNone (field "conditions" entry));
   ("Precip (mm)", default (PInt 0) (field "precip" entry))].

Section Vocabulary.
Context `{Libraries}.

(** The request of the call goes through and [payload] is what its body
    decodes to. *)
Definition received (net : Network) (w : World)
    (city : string) (year month : Z) (api_key : string) (payload : pyval) : Prop :=
  exists range response,
    resolve year month = Ok range
    /\ net (length (sent w)) (build_request city range api_key) = Ok response
    /\ http_error_msg response = None
    /\ json response = Ok payload.

(** The values of a field over the entries, in their order, with [dflt]
    where an entry has no such field. *)
Definition field_values (key : string) (dflt : pyval) (entries : list pyval)
    : list pyval :=
  map (fun entry => default dflt (field key entry)) entries.

(** The column of the dates of the entries, as the frame holds it before
    [pd.to_datetime] is applied. *)
Definition date_column (entries : list pyval) : list (cell Timestamp) :=
  pd_Series (field_values "datetime" PNone entries).

(** [pd.to_datetime] reads the dates of the entries as [stamps]. *)
Definition dates_read (entries : list pyval) (stamps : list (option Timestamp)) : Prop :=
  to_datetime (date_column entries) = Ok stamps.

(** The cell that the column of a field holds for the value [v]: the
    value, stored in the dtype inferred from all the values of the field. *)
Definition stored (key : string) (dflt : pyval) (entries : list pyval) (v : pyval)
    : cell Timestamp :=
  convert (infer_dtype (field_values key dflt entries)) v.

(** A column of a frame, by its label. *)
Definition column (label : string) (df : DataFrame) : list (cell Timestamp) :=
  default [] (dict_lookup label (columns df)).

(** The frame of a list of entries whose dates are read as [stamps]: six
    columns and one row per entry, in the order of the entries. *)
Definition expected_frame (entries : list pyval) (stamps : list (option Timestamp))
    : DataFrame :=
  mk_frame (length entries)
    [("Date", map stamp_cell stamps);
     ("Max Temp (°C)", pd_Series (field_values "tempmax" PNone entries));
     ("Min Temp (°C)", pd_Series (field_values "tempmin" PNone entries));
     ("Avg Temp (°C)", pd_Series (field_values "temp" PNone entries));
     ("Conditions", pd_Series (field_values "conditions" PNone entries));
     ("Precip (mm)", pd_Series (field_values "precip" (PInt 0) entries))].

(** The columns that the handler reads from the frame: lines 97-114. *)
Definition HANDLER_COLUMNS : list string :=
  ["Max Temp (°C)"; "Min Temp (°C)"; "Precip (mm)"; "Avg Temp (°C)"; "Date"].

(** Every frame kept in the cache has rows and columns. *)
Definition cache_frames_not_empty (s : Session) : Prop :=
  forall key entry df,
    cache s !! key = Some entry -> cached_value entry = Some df ->
    df_empty df = false.

(** The message that a handler shows for an exception. *)
Definition error_message (e : PyExn) : string :=
  if is_RequestException e then
    "API Request Failed: " +:+ exn_str e +:+ ". Check city name or API key."
  else "Unexpected Error: " +:+ exn_str e.

(** What the body of the [try] comes to for a request sent in [w]. *)
Definition outcome (net : Network) (w : World) (req : Request) : result DataFrame :=
  response <-? net (length (sent w)) req;
  _ <-? raise_for_status response;
  data <-? json response;
  normalize data.

(** The world after one more request and, possibly, one more message. *)
Definition after (w : World) (req : Request) (msgs : list string) : World :=
  mk_world (sent w ++ [req]) (shown w ++ msgs).

End Vocabulary.

(** ** Checks by enumeration *)

Fixpoint years_from (lo : Z) (count : nat) : list Z :=
  match count with
  | O => []
  | S count' => lo :: years_from (lo + 1) count'
  end.

Definition months : list Z := [1; 2; 3; 4; 5; 6; 7; 8; 9; 10; 11; 12].

Definition all_year_months (P : Z -> Z -> bool) (lo : Z) (count : nat) : bool :=
  forallb (fun y => forallb (P y) months) (years_from lo count).

(** The day before the first of the next month is the last day of the
    month, as the specification counts it; its ordinal lies in the cycle
    and, but for the last year of a cycle, in its first 399 years. *)
Definition last_day_ok (y m : Z) : bool :=
  if m =? 12 then true
  else
    let n := Calendar.ymd2ord y (m + 1) 1 - 1 in
    (0 <? n) && (n <=? Calendar.DI400Y)
    && ((y =? 400) || (n <=? Calendar.MAXORDINAL - 24 * Calendar.DI400Y))
    && match Calendar.ord2ymd n with
       | (y', m', d') =>
           (y' =? y) && (m' =? m) && (d' =? Gregorian.month_length y m)
       end.

(** The day before the first of January is the 31st of December of the
    year before, with the same bounds on its ordinal. *)
Definition year_end_ok (y : Z) : bool :=
  let n := Calendar.ymd2ord y 1 1 - 1 in
  (0 <? n) && (n <=? Calendar.DI400Y)
  && ((y =? 400) || (n <=? Calendar.MAXORDINAL - 24 * Calendar.DI400Y))
  && match Calendar.ord2ymd n with
     | (y', m', d') => (y' =? y - 1) && (m' =? 12) && (d' =? 31)
     end.

(** The text of a year has four digits. *)
Definition year_text_ok (y : Z) : bool :=
  bool_decide (String.length (PyFormat.str_int y) = 4%nat)
  && DateText.all_digits (PyFormat.str_int y).

(** The text [-MM-DD] of a month and a day. *)
Definition month_day_text (m d : Z) : string :=
  "-" +:+ PyFormat.zfill 2 (PyFormat.str_int m) +:+ "-" +:+ PyFormat.zfill 2 (PyFormat.str_int d).

Definition month_day_text_ok (m d : Z) : bool :=
  bool_decide (String.length (month_day_text m d) = 6%nat)
  && bool_decide (DateText.read_date ("0" +:+ month_day_text m d) = Some (0, m, d))
  && String.eqb (PyFormat.format_0d 2 m) (PyFormat.zfill 2 (PyFormat.str_int m))
  && DateText.is_yyyy_mm_dd ("0000" +:+ month_day_text m d).

(** The days of a month that a range can name. *)
Definition range_days : list Z := [1; 28; 29; 30; 31].

(** * Properties *)

(** ** Text and numbers *)

Lemma length_append (a b : string) :
  String.length (a +:+ b) = (String.length a + String.length b)%nat.
Proof. induction a as [|c a IH]; simpl; [reflexivity | now rewrite IH]. Qed.

Lemma substring_append_l (a b : string) :
  String.substring 0 (String.length a) (a +:+ b) = a.
Proof. induction a as [|c a IH]; simpl; [now destruct b | now rewrite IH]. Qed.

Lemma substring_append_r (a b : string) (i k : nat) :
  String.substring (String.length a + i) k (a +:+ b) = String.substring i k b.
Proof. induction a as [|c a IH]; simpl; [reflexivity | exact IH]. Qed.

Lemma to_int_not_nil (n : Z) : Z.to_int n <> Decimal.Pos Decimal.Nil /\ Z.to_int n <> Decimal.Neg Decimal.Nil.
Proof.
  destruct n as [|p|p]; simpl; split; try discriminate; intros [= E];
    now apply (DecimalPos.Unsigned.to_uint_nonnil p).
Qed.

(** [int(str(n)) == n]. *)
Lemma int_of_str_str_int (n : Z) : PyFormat.int_of_str (PyFormat.str_int n) = Some n.
Proof.
  unfold PyFormat.int_of_str, PyFormat.str_int.
  destruct (to_int_not_nil n) as [Hp Hn].
  rewrite (NilZero.isi _ Hp Hn). simpl. now rewrite DecimalZ.of_to.
Qed.

Lemma substring_append_r0 (a b : string) (k : nat) :
  String.substring (String.length a) k (a +:+ b) = String.substring 0 k b.
Proof. rewrite <- (substring_append_r a b 0 k). f_equal. lia. Qed.

(** Reading a text that ends with the six characters [tail]. *)
Lemma read_date_append (a tail : string) :
  String.length tail = 6%nat ->
  DateText.read_date (a +:+ tail) =
    if String.eqb (String.substring 0 1 tail) "-"
       && String.eqb (String.substring 3 1 tail) "-"
       && DateText.all_digits (String.substring 1 2 tail)
       && DateText.all_digits (String.substring 4 2 tail)
    then
      y ← PyFormat.int_of_str a;
      m ← PyFormat.int_of_str (String.substring 1 2 tail);
      d ← PyFormat.int_of_str (String.substring 4 2 tail);
      Some (y, m, d)
    else None.
Proof.
  intros Hlen. unfold DateText.read_date.
  rewrite length_append, Hlen.
  replace (String.length a + 6 - 5)%nat with (String.length a + 1)%nat by lia.
  replace (String.length a + 6 - 2)%nat with (String.length a + 4)%nat by lia.
  replace (String.length a + 6 - 6)%nat with (String.length a) by lia.
  replace (String.length a + 6 - 3)%nat with (String.length a + 3)%nat by lia.
  rewrite !substring_append_r, substring_append_l, substring_append_r0.
  rewrite bool_decide_eq_true_2 by lia.
  reflexivity.
Qed.

(** ** The limit on the digits of an integer *)

Lemma str_limit_eq : PyFormat.str_limit = 10 ^ 4300.
Proof. vm_compute. reflexivity. Qed.

Lemma str_limit_large : 2 ^ 64 <= PyFormat.str_limit.
Proof. vm_compute. discriminate. Qed.

Lemma format_int_ok (n : Z) :
  Z.abs n < PyFormat.str_limit -> PyFormat.format_int n = Ok (PyFormat.str_int n).
Proof.
  intros Hn. unfold PyFormat.format_int.
  now rewrite (proj2 (Z.ltb_lt _ _) Hn).
Qed.

Lemma format_int_0d_ok (width : nat) (n : Z) :
  Z.abs n < PyFormat.str_limit ->
  PyFormat.format_int_0d width n = Ok (PyFormat.format_0d width n).
Proof.
  intros Hn. unfold PyFormat.format_int_0d.
  now rewrite (proj2 (Z.ltb_lt _ _) Hn).
Qed.

Lemma format_int_raise (n : Z) :
  PyFormat.str_limit <= Z.abs n ->
  PyFormat.format_int n = Raise (ValueError PyFormat.DIGITS_EXCEEDED).
Proof.
  intros Hn. unfold PyFormat.format_int.
  now rewrite (proj2 (Z.ltb_ge _ _) Hn).
Qed.

Lemma format_int_0d_raise (width : nat) (n : Z) :
  PyFormat.str_limit <= Z.abs n ->
  PyFormat.format_int_0d width n = Raise (ValueError PyFormat.DIGITS_EXCEEDED).
Proof.
  intros Hn. unfold PyFormat.format_int_0d.
  now rewrite (proj2 (Z.ltb_ge _ _) Hn).
Qed.

(** An integer of 64 bits is written. *)
Lemma format_int_small (n : Z) :
  Z.abs n < 2 ^ 64 -> PyFormat.format_int n = Ok (PyFormat.str_int n).
Proof.
  intros Hn. apply format_int_ok. pose proof str_limit_large. lia.
Qed.

Lemma format_int_0d_small (width : nat) (n : Z) :
  Z.abs n < 2 ^ 64 -> PyFormat.format_int_0d width n = Ok (PyFormat.format_0d width n).
Proof.
  intros Hn. apply format_int_0d_ok. pose proof str_limit_large. lia.
Qed.

(** The range of December, for a year that can be written. *)
Lemma resolve_december (y : Z) :
  Z.abs y < 10 ^ 4300 ->
  exists r, resolve y 12 = Ok r
    /\ start_date r = PyFormat.str_int y +:+ "-12-01"
    /\ end_date r = PyFormat.str_int y +:+ "-12-31"
    /\ DateText.read_date (start_date r) = Some (y, 12, 1)
    /\ DateText.read_date (end_date r) = Some (y, 12, 31).
Proof.
  intros Hy. rewrite <- str_limit_eq in Hy.
  exists (mk_range (PyFormat.str_int y +:+ "-12-01") (PyFormat.str_int y +:+ "-12-31")).
  split.
  { unfold resolve. rewrite (format_int_ok y Hy). reflexivity. }
  cbn [start_date end_date].
  do 2 (split; [reflexivity|]).
  rewrite !read_date_append by reflexivity.
  simpl. rewrite int_of_str_str_int. split; reflexivity.
Qed.

(** ** Checks by enumeration *)

Lemma years_from_spec (count : nat) (lo y : Z) :
  lo <= y < lo + Z.of_nat count -> In y (years_from lo count).
Proof.
  revert lo. induction count as [|count IH]; intros lo Hy; [lia|].
  simpl. destruct (Z.eq_dec lo y) as [->|Hne]; [now left|].
  right. apply IH. lia.
Qed.

Lemma months_spec (m : Z) : 1 <= m <= 12 -> In m months.
Proof.
  intros Hm.
  assert (m = 1 \/ m = 2 \/ m = 3 \/ m = 4 \/ m = 5 \/ m = 6 \/ m = 7
          \/ m = 8 \/ m = 9 \/ m = 10 \/ m = 11 \/ m = 12) as Hcase by lia.
  unfold months. simpl. intuition.
Qed.

Lemma all_year_months_spec (P : Z -> Z -> bool) (lo : Z) (count : nat) :
  all_year_months P lo count = true ->
  forall y m, lo <= y < lo + Z.of_nat count -> 1 <= m <= 12 -> P y m = true.
Proof.
  unfold all_year_months. intros Hall y m Hy Hm.
  rewrite forallb_forall in Hall.
  specialize (Hall y (years_from_spec _ _ _ Hy)).
  rewrite forallb_forall in Hall. apply Hall, months_spec, Hm.
Qed.

(** One cycle of 400 years, month by month. *)
Lemma last_day_cycle_checked : all_year_months last_day_ok 1 400 = true.
Proof. vm_compute. reflexivity. Qed.

(** ** The calendar of [datetime] against the calendar of the specification *)

Lemma is_leap_cycle (q y : Z) : Calendar.is_leap (400 * q + y) = Calendar.is_leap y.
Proof.
  unfold Calendar.is_leap.
  replace (400 * q + y) with (y + (100 * q) * 4) at 1 by lia.
  replace (400 * q + y) with (y + (4 * q) * 100) at 1 by lia.
  replace (400 * q + y) with (y + q * 400) by lia.
  now rewrite !Z_mod_plus_full.
Qed.

Lemma leap_year_cycle (q y : Z) : Gregorian.leap_year (400 * q + y) = Gregorian.leap_year y.
Proof.
  unfold Gregorian.leap_year.
  replace (400 * q + y) with (y + (100 * q) * 4) at 1 by lia.
  replace (400 * q + y) with (y + (4 * q) * 100) at 1 by lia.
  replace (400 * q + y) with (y + q * 400) by lia.
  now rewrite !Z_mod_plus_full.
Qed.

Lemma month_length_cycle (q y m : Z) :
  Gregorian.month_length (400 * q + y) m = Gregorian.month_length y m.
Proof. unfold Gregorian.month_length. now rewrite leap_year_cycle. Qed.

Lemma days_before_year_cycle (q y : Z) :
  Calendar.days_before_year (400 * q + y)
  = Calendar.DI400Y * q + Calendar.days_before_year y.
Proof.
  unfold Calendar.days_before_year, Calendar.DI400Y. cbv zeta.
  replace (400 * q + y - 1) with (y - 1 + (100 * q) * 4) at 2 by lia.
  replace (400 * q + y - 1) with (y - 1 + (4 * q) * 100) at 2 by lia.
  replace (400 * q + y - 1) with (y - 1 + q * 400) at 2 by lia.
  rewrite !Z_div_plus_full by lia. lia.
Qed.

Lemma ymd2ord_cycle (q y m d : Z) :
  Calendar.ymd2ord (400 * q + y) m d = Calendar.DI400Y * q + Calendar.ymd2ord y m d.
Proof.
  unfold Calendar.ymd2ord, Calendar.days_before_month.
  rewrite days_before_year_cycle, is_leap_cycle. lia.
Qed.

Lemma ord2ymd_cycle (q n : Z) :
  0 < n <= Calendar.DI400Y ->
  Calendar.ord2ymd (Calendar.DI400Y * q + n)
  = let '(y, m, d) := Calendar.ord2ymd n in (400 * q + y, m, d).
Proof.
  intros Hn. unfold Calendar.ord2ymd. cbv zeta.
  replace (Calendar.DI400Y * q + n - 1) with (n - 1 + q * Calendar.DI400Y) by lia.
  rewrite Z_div_plus_full, Z_mod_plus_full by (unfold Calendar.DI400Y; lia).
  rewrite (Z.div_small (n - 1) Calendar.DI400Y) by lia.
  rewrite (Z.mod_small (n - 1) Calendar.DI400Y) by lia.
  repeat match goal with
         | |- context [if ?b then _ else _] => destruct b
         end; f_equal; try f_equal; lia.
Qed.

Lemma month_length_cases (y m : Z) :
  In (Gregorian.month_length y m) range_days.
Proof.
  unfold Gregorian.month_length, range_days.
  repeat match goal with |- context [if ?b then _ else _] => destruct b end;
    simpl; tauto.
Qed.

Lemma day_after_last_day (y m : Z) :
  1 <= m <= 11 ->
  Gregorian.day_after (y, m, Gregorian.month_length y m) = (y, m + 1, 1).
Proof.
  intros Hm. unfold Gregorian.day_after.
  rewrite Z.ltb_irrefl.
  destruct (Z.ltb_spec m 12); [reflexivity | lia].
Qed.

Lemma days_in_month_positive (y m : Z) :
  1 <= m <= 12 -> 1 <= Calendar.days_in_month y m <= 31.
Proof.
  intros Hm. unfold Calendar.days_in_month.
  destruct (_ && _); [lia|].
  pose proof (months_spec m Hm) as Hin. unfold months in Hin. simpl in Hin.
  unfold Calendar.table, Calendar.DAYS_IN_MONTH.
  repeat (destruct Hin as [<-|Hin]; [simpl; lia|]). destruct Hin.
Qed.

(** The integers that fit in a C [int] are converted to themselves, the
    others raise [OverflowError]. *)
Lemma c_int_ok (v : Z) : - 2 ^ 31 <= v < 2 ^ 31 -> Calendar.c_int v = Ok v.
Proof.
  intros Hv. unfold Calendar.c_int.
  destruct (Z.ltb_spec v (- 2 ^ 63)); [lia|].
  destruct (Z.leb_spec (2 ^ 63) v); [lia|].
  destruct (Z.leb_spec (2 ^ 31) v); [lia|].
  destruct (Z.ltb_spec v (- 2 ^ 31)); [lia|]. reflexivity.
Qed.

Lemma c_int_overflow (v : Z) :
  ~ - 2 ^ 31 <= v < 2 ^ 31 -> exists msg, Calendar.c_int v = Raise (OverflowError msg).
Proof.
  intros Hv. unfold Calendar.c_int.
  destruct (Z.ltb_spec v (- 2 ^ 63)); [simpl; eauto|].
  destruct (Z.leb_spec (2 ^ 63) v); [simpl; eauto|].
  destruct (Z.leb_spec (2 ^ 31) v); [simpl; eauto|].
  destruct (Z.ltb_spec v (- 2 ^ 31)); [simpl; eauto|]. lia.
Qed.

Lemma new_ok (y m d : Z) :
  1 <= y <= 9999 -> 1 <= m <= 12 -> 1 <= d <= Calendar.days_in_month y m ->
  Calendar.new y m d = Ok (Calendar.mk_datetime y m d).
Proof.
  intros Hy Hm Hd. pose proof (days_in_month_positive y m Hm) as Hdm.
  unfold Calendar.new, Calendar.MINYEAR, Calendar.MAXYEAR.
  rewrite !c_int_ok by lia. cbn [rbind].
  rewrite !(proj2 (Z.leb_le _ _)) by lia. reflexivity.
Qed.

(** A year out of range, for arguments that fit in a C [int]. *)
Lemma new_year_out_of_range (y m d : Z) :
  - 2 ^ 31 <= y < 2 ^ 31 -> - 2 ^ 31 <= m < 2 ^ 31 -> - 2 ^ 31 <= d < 2 ^ 31 ->
  ~ 1 <= y <= 9999 ->
  Calendar.new y m d
  = Raise (ValueError ("year " +:+ PyFormat.str_int y +:+ " is out of range")).
Proof.
  intros Hy Hm Hd Hout. unfold Calendar.new, Calendar.MINYEAR, Calendar.MAXYEAR.
  rewrite !c_int_ok by lia. cbn [rbind].
  destruct (Z.leb_spec 1 y), (Z.leb_spec y 9999); simpl; try reflexivity; lia.
Qed.

(** A month out of range, for a year in range and arguments that fit in a
    C [int]. *)
Lemma new_month_out_of_range (y m d : Z) :
  1 <= y <= 9999 -> - 2 ^ 31 <= m < 2 ^ 31 -> - 2 ^ 31 <= d < 2 ^ 31 ->
  ~ 1 <= m <= 12 ->
  Calendar.new y m d = Raise (ValueError "month must be in 1..12").
Proof.
  intros Hy Hm Hd Hout. unfold Calendar.new, Calendar.MINYEAR, Calendar.MAXYEAR.
  rewrite !c_int_ok by lia. cbn [rbind].
  rewrite !(proj2 (Z.leb_le 1 y)), !(proj2 (Z.leb_le y 9999)) by lia. simpl.
  destruct (Z.leb_spec 1 m), (Z.leb_spec m 12); simpl; try reflexivity; lia.
Qed.

(** An argument that does not fit in a C [int] raises [OverflowError],
    whatever the other arguments are. *)
Lemma new_overflow (y m d : Z) :
  ~ - 2 ^ 31 <= y < 2 ^ 31 \/ ~ - 2 ^ 31 <= m < 2 ^ 31 \/ ~ - 2 ^ 31 <= d < 2 ^ 31 ->
  exists msg, Calendar.new y m d = Raise (OverflowError msg).
Proof.
  intros Hout. unfold Calendar.new.
  destruct (Z_le_dec (- 2 ^ 31) y) as [Hy1|Hy1];
    [destruct (Z_lt_dec y (2 ^ 31)) as [Hy2|Hy2]|];
    try (destruct (c_int_overflow y ltac:(lia)) as (msg & ->); simpl; eauto; fail).
  rewrite (c_int_ok y) by lia. cbn [rbind].
  destruct (Z_le_dec (- 2 ^ 31) m) as [Hm1|Hm1];
    [destruct (Z_lt_dec m (2 ^ 31)) as [Hm2|Hm2]|];
    try (destruct (c_int_overflow m ltac:(lia)) as (msg & ->); simpl; eauto; fail).
  rewrite (c_int_ok m) by lia. cbn [rbind].
  destruct (c_int_overflow d ltac:(lia)) as (msg & ->). simpl. eauto.
Qed.

(** [datetime(y, m + 1, 1) - timedelta(days=1)] is the last day of month
    [m] of year [y]. *)
Lemma day_before_next_month (y m : Z) :
  1 <= y <= 9999 -> 1 <= m <= 11 ->
  Calendar.new y (m + 1) 1 = Ok (Calendar.mk_datetime y (m + 1) 1)
  /\ Calendar.sub_days (Calendar.mk_datetime y (m + 1) 1) 1
     = Ok (Calendar.mk_datetime y m (Gregorian.month_length y m)).
Proof.
  intros Hy Hm. split.
  - apply new_ok; [lia | lia |].
    pose proof (days_in_month_positive y (m + 1) ltac:(lia)). lia.
  - pose proof (Z_div_mod_eq_full (y - 1) 400) as Hsplit.
    pose proof (Z.mod_pos_bound (y - 1) 400 ltac:(lia)) as Hr.
    set (q := (y - 1) / 400) in *. set (r := (y - 1) mod 400) in *.
    clearbody q r. set (y' := r + 1).
    assert (Hq : 0 <= q <= 24) by lia.
    assert (Hy' : 1 <= y' <= 400) by (unfold y'; lia).
    assert (Hy'' : y = 400 * q + y') by (unfold y'; lia).
    assert (Hlast : q = 24 -> y' <> 400) by (unfold y'; lia).
    clearbody y'. clear Hsplit Hr. rename Hy'' into Hsplit.
    pose proof (all_year_months_spec _ _ _ last_day_cycle_checked y' m
                  ltac:(lia) ltac:(lia)) as Hc.
    unfold last_day_ok in Hc.
    destruct (Z.eqb_spec m 12) as [|_]; [lia|].
    cbv zeta in Hc.
    set (n := Calendar.ymd2ord y' (m + 1) 1 - 1) in Hc.
    destruct (Calendar.ord2ymd n) as [[y1 m1] d1] eqn:Hord.
    rewrite !andb_true_iff, orb_true_iff, !Z.eqb_eq, Z.ltb_lt, !Z.leb_le in Hc.
    destruct Hc as [[[Hn0 Hn1] Hn2] [[-> ->] ->]].
    unfold Calendar.sub_days, Calendar.toordinal. simpl.
    rewrite Hsplit, ymd2ord_cycle.
    replace (Calendar.DI400Y * q + Calendar.ymd2ord y' (m + 1) 1 - 1)
      with (Calendar.DI400Y * q + n) by (unfold n; lia).
    assert (Hrange : 0 < Calendar.DI400Y * q + n <= Calendar.MAXORDINAL).
    { unfold Calendar.DI400Y, Calendar.MAXORDINAL in *. split; [lia|].
      destruct (Z.eq_dec q 24) as [->|]; [|lia].
      assert (y' <> 400) by auto. lia. }
    replace ((0 <? Calendar.DI400Y * q + n)
             && (Calendar.DI400Y * q + n <=? Calendar.MAXORDINAL)) with true
      by (symmetry; apply andb_true_iff; split;
          [apply Z.ltb_lt | apply Z.leb_le]; lia).
    rewrite ord2ymd_cycle by lia. rewrite Hord, month_length_cycle.
    reflexivity.
Qed.

(** ** The text of the two dates *)

(** A text that ends like a date reads as that date in the year that its
    head reads as. *)
Lemma read_date_year (a tail : string) (y m d : Z) :
  String.length tail = 6%nat ->
  DateText.read_date ("0" +:+ tail) = Some (0, m, d) ->
  PyFormat.int_of_str a = Some y ->
  DateText.read_date (a +:+ tail) = Some (y, m, d).
Proof.
  intros Hlen Hzero Ha.
  rewrite read_date_append in Hzero |- * by exact Hlen.
  destruct (_ && _ && _ && _); [|discriminate].
  rewrite Ha. simpl in Hzero |- *.
  destruct (PyFormat.int_of_str (String.substring 1 2 tail)); [|discriminate].
  simpl in Hzero |- *.
  destruct (PyFormat.int_of_str (String.substring 4 2 tail)); [|discriminate].
  simpl in Hzero |- *. now injection Hzero as -> ->.
Qed.

Lemma month_day_texts_checked :
  forallb (fun m => forallb (month_day_text_ok m) range_days) months = true.
Proof. vm_compute. reflexivity. Qed.

Lemma month_day_text_spec (m d : Z) :
  1 <= m <= 12 -> In d range_days ->
  String.length (month_day_text m d) = 6%nat
  /\ DateText.read_date ("0" +:+ month_day_text m d) = Some (0, m, d)
  /\ PyFormat.format_0d 2 m = PyFormat.zfill 2 (PyFormat.str_int m)
  /\ DateText.is_yyyy_mm_dd ("0000" +:+ month_day_text m d) = true.
Proof.
  intros Hm Hd.
  pose proof month_day_texts_checked as Hall.
  rewrite forallb_forall in Hall. specialize (Hall m (months_spec m Hm)).
  rewrite forallb_forall in Hall. specialize (Hall d Hd).
  unfold month_day_text_ok in Hall.
  rewrite !andb_true_iff, !bool_decide_eq_true, String.eqb_eq in Hall.
  tauto.
Qed.

(** The start date is the text of the year followed by [-MM-01]. *)
Lemma start_date_text (y m : Z) (r : DateRange) :
  1 <= m <= 12 -> resolve y m = Ok r ->
  start_date r = PyFormat.str_int y +:+ month_day_text m 1.
Proof.
  intros Hm Hr. unfold resolve in Hr.
  rewrite (format_int_0d_small 2 m) in Hr by lia.
  unfold PyFormat.format_int in Hr.
  destruct (Z.abs y <? PyFormat.str_limit); [|discriminate]. cbn [rbind] in Hr.
  destruct (if m =? 12 then _ else _) as [e|]; [|discriminate].
  cbn [rbind] in Hr. injection Hr as <-. cbn [start_date].
  destruct (month_day_text_spec m 1 Hm ltac:(simpl; tauto)) as (_ & _ & -> & _).
  reflexivity.
Qed.

(** The range of a month of a year that [datetime] can hold. *)
Lemma resolve_datetime_year (y m : Z) :
  1 <= y <= 9999 -> 1 <= m <= 11 ->
  exists r, resolve y m = Ok r
    /\ start_date r = PyFormat.str_int y +:+ month_day_text m 1
    /\ end_date r = PyFormat.str_int y
                    +:+ month_day_text m (Gregorian.month_length y m).
Proof.
  intros Hy Hm.
  destruct (day_before_next_month y m Hy Hm) as [Hnew Hsub].
  assert (Hr : resolve y m
               = Ok (mk_range
                       (PyFormat.str_int y +:+ "-" +:+ PyFormat.format_0d 2 m +:+ "-01")
                       (Calendar.strftime_ymd
                          (Calendar.mk_datetime y m (Gregorian.month_length y m))))).
  { unfold resolve. destruct (Z.eqb_spec m 12); [lia|].
    rewrite (format_int_small y), (format_int_0d_small 2 m) by lia.
    cbn [rbind]. rewrite Hnew. cbn [rbind]. rewrite Hsub. reflexivity. }
  eexists. split; [exact Hr|]. split; [|reflexivity].
  apply (start_date_text y m); [lia | exact Hr].
Qed.

(** The range of a month, read back as dates. *)
Lemma resolve_reads_back (y m : Z) :
  1 <= m <= 12 -> (m = 12 /\ Z.abs y < 10 ^ 4300) \/ 1 <= y <= 9999 ->
  exists r, resolve y m = Ok r
    /\ DateText.read_date (start_date r) = Some (y, m, 1)
    /\ DateText.read_date (end_date r) = Some (y, m, Gregorian.month_length y m).
Proof.
  intros Hm Hdom. rewrite <- str_limit_eq in Hdom.
  destruct (Z.eq_dec m 12) as [->|Hne].
  { assert (Hy : Z.abs y < PyFormat.str_limit).
    { destruct Hdom as [[_ Hy]|Hy]; [exact Hy|]. pose proof str_limit_large. lia. }
    rewrite str_limit_eq in Hy.
    destruct (resolve_december y Hy) as (r & Hr & _ & _ & Hs & He). eauto. }
  assert (Hy : 1 <= y <= 9999) by lia.
  destruct (resolve_datetime_year y m Hy ltac:(lia)) as (r & Hr & Hs & He).
  exists r. split; [exact Hr|]. rewrite Hs, He.
  destruct (month_day_text_spec m 1 Hm ltac:(simpl; tauto)) as (L1 & R1 & _).
  destruct (month_day_text_spec m _ Hm (month_length_cases y m)) as (L2 & R2 & _).
  split; apply read_date_year; try assumption; apply int_of_str_str_int.
Qed.

Lemma year_texts_checked :
  forallb year_text_ok (years_from 1000 (Z.to_nat 9000)) = true.
Proof. vm_compute. reflexivity. Qed.

(** A year of four digits is written with four characters. *)
Lemma year_text_spec (y : Z) :
  1000 <= y <= 9999 ->
  String.length (PyFormat.str_int y) = 4%nat
  /\ DateText.all_digits (PyFormat.str_int y) = true
  /\ PyFormat.zfill 4 (PyFormat.str_int y) = PyFormat.str_int y.
Proof.
  intros Hy. pose proof year_texts_checked as Hall.
  rewrite forallb_forall in Hall.
  specialize (Hall y (years_from_spec (Z.to_nat 9000) 1000 y ltac:(lia))).
  unfold year_text_ok in Hall.
  rewrite andb_true_iff, bool_decide_eq_true in Hall.
  destruct Hall as [Hlen Hdig]. repeat split; [exact Hlen | exact Hdig |].
  unfold PyFormat.zfill. now rewrite Hlen.
Qed.

Lemma substrings_after_year (a tail : string) :
  String.length a = 4%nat ->
  String.length (a +:+ tail) = (4 + String.length tail)%nat
  /\ String.substring 0 4 (a +:+ tail) = a
  /\ String.substring 4 1 (a +:+ tail) = String.substring 0 1 tail
  /\ String.substring 5 2 (a +:+ tail) = String.substring 1 2 tail
  /\ String.substring 7 1 (a +:+ tail) = String.substring 3 1 tail
  /\ String.substring 8 2 (a +:+ tail) = String.substring 4 2 tail.
Proof.
  intros Hlen.
  pose proof (length_append a tail) as E0.
  pose proof (substring_append_l a tail) as E1.
  pose proof (substring_append_r a tail 0 1) as E2.
  pose proof (substring_append_r a tail 1 2) as E3.
  pose proof (substring_append_r a tail 3 1) as E4.
  pose proof (substring_append_r a tail 4 2) as E5.
  rewrite Hlen in E0, E1, E2, E3, E4, E5.
  repeat split; assumption.
Qed.

(** The shape [YYYY-MM-DD] does not depend on which four digits come first. *)
Lemma is_yyyy_mm_dd_year (a tail : string) :
  String.length a = 4%nat -> DateText.all_digits a = true ->
  DateText.is_yyyy_mm_dd ("0000" +:+ tail) = true ->
  DateText.is_yyyy_mm_dd (a +:+ tail) = true.
Proof.
  intros Hlen Hdig. unfold DateText.is_yyyy_mm_dd.
  destruct (substrings_after_year a tail Hlen) as (-> & -> & -> & -> & -> & ->).
  destruct (substrings_after_year "0000" tail eq_refl) as (-> & -> & -> & -> & -> & ->).
  change (DateText.all_digits "0000") with true.
  rewrite Hdig. exact (fun E => E).
Qed.

(** The range of a month of a year of four digits, as text. *)
Lemma resolve_four_digit_year (y m : Z) :
  1000 <= y <= 9999 -> 1 <= m <= 12 ->
  resolve y m
  = Ok (mk_range (DateText.yyyy_mm_dd y m 1)
                 (DateText.yyyy_mm_dd y m (Gregorian.month_length y m)))
  /\ DateText.is_yyyy_mm_dd (DateText.yyyy_mm_dd y m 1) = true
  /\ DateText.is_yyyy_mm_dd
       (DateText.yyyy_mm_dd y m (Gregorian.month_length y m)) = true.
Proof.
  intros Hy Hm.
  destruct (year_text_spec y Hy) as (Hlen & Hdig & Hfill).
  destruct (month_day_text_spec m 1 Hm ltac:(simpl; tauto)) as (_ & _ & _ & S1).
  destruct (month_day_text_spec m _ Hm (month_length_cases y m)) as (_ & _ & _ & S2).
  change (DateText.yyyy_mm_dd y m 1)
    with (PyFormat.zfill 4 (PyFormat.str_int y) +:+ month_day_text m 1).
  change (DateText.yyyy_mm_dd y m (Gregorian.month_length y m))
    with (PyFormat.zfill 4 (PyFormat.str_int y)
          +:+ month_day_text m (Gregorian.month_length y m)).
  rewrite Hfill. split; [|split; apply is_yyyy_mm_dd_year; assumption].
  destruct (Z.eq_dec m 12) as [->|Hne].
  - destruct (resolve_december y) as (r & -> & Hs & He & _).
    { rewrite <- str_limit_eq. pose proof str_limit_large. lia. }
    destruct r as [s e]. simpl in Hs, He. rewrite Hs, He. reflexivity.
  - destruct (resolve_datetime_year y m ltac:(lia) ltac:(lia)) as (r & -> & Hs & He).
    destruct r as [s e]. simpl in Hs, He. rewrite Hs, He. reflexivity.
Qed.

(** For the years and months that the widgets supply, the range is
    resolved and its two dates are written [YYYY-MM-DD]. *)
Lemma widget_inputs_resolve (year month : Z) :
  widget_inputs year month ->
  resolve year month
  = Ok (mk_range (DateText.yyyy_mm_dd year month 1)
                 (DateText.yyyy_mm_dd year month (Gregorian.month_length year month))).
Proof.
  intros [Hy Hm]. apply resolve_four_digit_year; lia.
Qed.

(** ** Range resolution *)

(** Outside the years that [datetime] holds, and outside the integers
    that can be written, no range is resolved. *)
Lemma resolve_raises_outside (year month : Z) :
  1 <= month <= 12 ->
  ~ ((month = 12 /\ Z.abs year < 10 ^ 4300) \/ 1 <= year <= 9999) ->
  exists e, resolve year month = Raise e.
Proof.
  intros Hm Hout. rewrite <- str_limit_eq in Hout. unfold resolve.
  destruct (Z_lt_dec (Z.abs year) PyFormat.str_limit) as [Hy|Hy].
  - rewrite (format_int_ok year Hy), (format_int_0d_small 2 month) by lia.
    cbn [rbind].
    destruct (Z.eqb_spec month 12) as [->|Hne]; [exfalso; apply Hout; left; now split|].
    destruct (Z_le_dec (- 2 ^ 31) year) as [H1|H1];
      [destruct (Z_lt_dec year (2 ^ 31)) as [H2|H2]|].
    + rewrite new_year_out_of_range by lia. simpl. eauto.
    + destruct (new_overflow year (month + 1) 1 ltac:(left; lia)) as (msg & ->).
      simpl. eauto.
    + destruct (new_overflow year (month + 1) 1 ltac:(left; lia)) as (msg & ->).
      simpl. eauto.
  - rewrite format_int_raise by lia. simpl. eauto.
Qed.

(** The year [10 ^ 4300], of 4301 digits, cannot be written. *)
Lemma resolve_4301_digits :
  resolve (10 ^ 4300) 12 = Raise (ValueError PyFormat.DIGITS_EXCEEDED).
Proof. vm_compute. reflexivity. Qed.

(** C2, counterexample: for the year 10000 and the month 1, which is in
    [1, 12], no range is resolved: [datetime(10000, 2, 1)] raises.  For the
    month 12 the year does not go through [datetime]; there it is the
    writing of the year that fails, from 4301 digits on. *)
Lemma resolve_year_10000_has_no_range :
  1 <= 1 <= 12
  /\ resolve 10000 1 = Raise (ValueError "year 10000 is out of range")
  /\ ~ (exists r, resolve 10000 1 = Ok r
          /\ DateText.read_date (start_date r) = Some (10000, 1, 1)
          /\ DateText.read_date (end_date r)
             = Some (10000, 1, Gregorian.month_length 10000 1))
  /\ resolve (10 ^ 4300) 12 = Raise (ValueError PyFormat.DIGITS_EXCEEDED).
Proof.
  split; [lia|]. split; [reflexivity|]. split.
  - intros (r & Hr & _). discriminate Hr.
  - exact resolve_4301_digits.
Qed.

(** C2, as amended.  For every month in [1, 12] and every year in
    [1, 9999] (for the month 12, every integer year of at most 4300
    digits), the range that is resolved starts at day 1 of (year, month)
    and ends at the last calendar day of that month: the 31st for the
    month 12, and otherwise the date whose following day is day 1 of
    (year, month + 1).  The range of (2024, 2) is February 1 to 29 and
    that of (2023, 2) February 1 to 28. *)
Theorem resolve_month_range (year month : Z) :
  1 <= month <= 12 ->
  (month = 12 /\ Z.abs year < 10 ^ 4300) \/ 1 <= year <= 9999 ->
  (exists r, resolve year month = Ok r
     /\ DateText.read_date (start_date r) = Some (year, month, 1)
     /\ DateText.read_date (end_date r)
        = Some (year, month, Gregorian.month_length year month))
  /\ (month = 12 -> Gregorian.month_length year month = 31)
  /\ (month <> 12 ->
      Gregorian.day_after (year, month, Gregorian.month_length year month)
      = (year, month + 1, 1))
  /\ resolve 2024 2 = Ok (mk_range "2024-02-01" "2024-02-29")
  /\ resolve 2023 2 = Ok (mk_range "2023-02-01" "2023-02-28").
Proof.
  intros Hm Hdom. split; [now apply resolve_reads_back|]. clear Hdom.
  split; [now intros ->|].
  split; [intros Hne; apply day_after_last_day; lia|].
  split; reflexivity.
Qed.

Lemma resolve_month_range_witness :
  exists r, resolve 2024 2 = Ok r
    /\ DateText.read_date (start_date r) = Some (2024, 2, 1)
    /\ DateText.read_date (end_date r) = Some (2024, 2, 29).
Proof.
  exact (proj1 (resolve_month_range 2024 2 ltac:(lia) ltac:(right; lia))).
Defined.

(** C9, counterexample: the month 1 is in [1, 12] and 0 is an integer
    year, and range resolution ends in an error; so it does for the month
    12 and a year of 4301 digits. *)
Lemma resolve_year_0_raises :
  1 <= 1 <= 12
  /\ resolve 0 1 = Raise (ValueError "year 0 is out of range")
  /\ ~ (exists r, resolve 0 1 = Ok r)
  /\ ~ (exists r, resolve (10 ^ 4300) 12 = Ok r).
Proof.
  split; [lia|]. split; [reflexivity|]. split.
  - intros (r & Hr). discriminate Hr.
  - intros (r & Hr). rewrite resolve_4301_digits in Hr. discriminate Hr.
Qed.

(** C9, as amended.  Range resolution is a total function, which returns a
    range and raises nothing, for every month in [1, 12] and every year in
    [1, 9999], and for the month 12 and every integer year of at most 4300
    digits; for a month in [1, 12] it returns a range for no other year.
    It is a function of the year and the month alone: [resolve] neither
    reads nor changes the world. *)
Theorem resolve_total (year month : Z) :
  1 <= month <= 12 ->
  (exists r, resolve year month = Ok r)
  <-> ((month = 12 /\ Z.abs year < 10 ^ 4300) \/ 1 <= year <= 9999).
Proof.
  intros Hm. split.
  - intros (r & Hr). rewrite <- str_limit_eq.
    destruct (Z_le_dec 1 year) as [H1|H1];
      [destruct (Z_le_dec year 9999) as [H2|H2]; [right; lia|]|];
      (destruct (Z.eq_dec month 12) as [Hd|Hd];
       [destruct (Z_lt_dec (Z.abs year) PyFormat.str_limit) as [Hy|Hy];
        [left; now split|]|]);
      exfalso;
      (destruct (resolve_raises_outside year month Hm) as (e & He); [|congruence]);
      rewrite <- str_limit_eq; intros [[? ?]|?]; try contradiction; lia.
  - intros Hdom. destruct (resolve_reads_back year month Hm Hdom) as (r & Hr & _).
    eauto.
Qed.

Lemma resolve_total_witness : exists r, resolve 2025 11 = Ok r.
Proof.
  exact (proj2 (resolve_total 2025 11 ltac:(lia)) ltac:(right; lia)).
Defined.

(** ** Running the function *)

Lemma on_exception_run `{Libraries} (e : PyExn) (w : World) :
  on_exception e w = (Ok None, mk_world (sent w) (shown w ++ [error_message e])).
Proof.
  unfold on_exception, error_message.
  destruct (is_RequestException e); reflexivity.
Qed.

(** Once the range is resolved, the call sends its request and returns:
    the frame when the body of the [try] comes to one, [None] and one
    message when it raises. *)
Lemma fetch_run `{Libraries} (net : Network) (city : string) (year month : Z)
    (api_key : string) (w : World) (range : DateRange) :
  resolve year month = Ok range ->
  fetch_monthly_data net city year month api_key w
  = match outcome net w (build_request city range api_key) with
    | Ok df => (Ok (Some df), after w (build_request city range api_key) [])
    | Raise e => (Ok None, after w (build_request city range api_key) [error_message e])
    end.
Proof.
  intros Hr. unfold fetch_monthly_data, bind at 1, lift at 1. rewrite Hr.
  unfold try_except, try_body, outcome, after.
  unfold bind at 1, requests_get. cbn [sent shown].
  destruct (net (length (sent w)) (build_request city range api_key)) as [response|e];
    cbn [rbind]; [|now rewrite on_exception_run].
  unfold bind at 1, lift at 1.
  destruct (raise_for_status response) as [[]|e];
    cbn [rbind]; [|now rewrite on_exception_run].
  unfold bind at 1, lift at 1.
  destruct (json response) as [data|e];
    cbn [rbind]; [|now rewrite on_exception_run].
  unfold bind, lift, ret.
  destruct (normalize data) as [df|e]; [|now rewrite on_exception_run].
  now rewrite app_nil_r.
Qed.

(** An exception of range resolution leaves the function, and the world
    is as it was. *)
Lemma fetch_raise `{Libraries} (net : Network) (city : string) (year month : Z)
    (api_key : string) (w : World) (e : PyExn) :
  resolve year month = Raise e ->
  fetch_monthly_data net city year month api_key w = (Raise e, w).
Proof.
  intros Hr. unfold fetch_monthly_data, bind, lift. now rewrite Hr.
Qed.

(** The requests of one call: one when the range is resolved, none
    otherwise. *)
Lemma fetch_sent `{Libraries} (net : Network) (city : string) (year month : Z)
    (api_key : string) (w : World) :
  sent (snd (fetch_monthly_data net city year month api_key w))
  = match resolve year month with
    | Ok range => sent w ++ [build_request city range api_key]
    | Raise _ => sent w
    end.
Proof.
  destruct (resolve year month) as [range|e] eqn:Hr.
  - rewrite (fetch_run _ _ _ _ _ _ _ Hr).
    destruct (outcome _ _ _); reflexivity.
  - now rewrite (fetch_raise _ _ _ _ _ _ _ Hr).
Qed.

(** What a received payload comes to. *)
Lemma fetch_received `{Libraries} (net : Network) (city : string) (year month : Z)
    (api_key : string) (w : World) (payload : pyval) :
  received net w city year month api_key payload ->
  exists req,
    fetch_monthly_data net city year month api_key w
    = match normalize payload with
      | Ok df => (Ok (Some df), after w req [])
      | Raise e => (Ok None, after w req [error_message e])
      end.
Proof.
  intros (range & response & Hr & Hnet & Hstatus & Hjson).
  exists (build_request city range api_key).
  rewrite (fetch_run _ _ _ _ _ _ _ Hr). unfold outcome.
  rewrite Hnet. cbn [rbind]. unfold raise_for_status. rewrite Hstatus.
  cbn [rbind]. rewrite Hjson. reflexivity.
Qed.

(** ** The request *)

(** C8, counterexample: for the year 999 the two dates of the path are
    written [999-12-01] and [999-12-31], which is not [YYYY-MM-DD]. *)
Lemma three_digit_year_path :
  exists req,
    sent (snd (fetch_monthly_data (serve PNone) "Chennai" 999 12 "key" empty_world))
    = [req]
    /\ url req = TIMELINE +:+ "Chennai" +:+ "/" +:+ "999-12-01" +:+ "/" +:+ "999-12-31"
    /\ DateText.is_yyyy_mm_dd "999-12-01" = false
    /\ DateText.is_yyyy_mm_dd "999-12-31" = false.
Proof. eexists. repeat split. Qed.

(** C8, as amended.  Every fetch for a year of four digits (1000 to 9999)
    and a month in [1, 12] sends exactly one request, a GET to the timeline
    endpoint whose path holds the location and the first and the last day
    of the month written [YYYY-MM-DD], with exactly the parameters
    key (the credential), include=days, unitGroup=metric, contentType=json
    and elements=datetime,tempmax,tempmin,temp,conditions,precip, and with
    a timeout of 10. *)
Theorem fetch_sends_one_request `{Libraries} (net : Network) (city : string)
    (year month : Z) (api_key : string) (w : World) :
  1000 <= year <= 9999 -> 1 <= month <= 12 ->
  let first := DateText.yyyy_mm_dd year month 1 in
  let last := DateText.yyyy_mm_dd year month (Gregorian.month_length year month) in
  sent (snd (fetch_monthly_data net city year month api_key w))
  = sent w
    ++ [mk_request GET
          (TIMELINE +:+ city +:+ "/" +:+ first +:+ "/" +:+ last)
          [("key", api_key); ("include", "days"); ("unitGroup", "metric");
           ("contentType", "json");
           ("elements", "datetime,tempmax,tempmin,temp,conditions,precip")]
          10]
  /\ TIMELINE
     = "https://weather.visualcrossing.com/VisualCrossingWebServices/rest/services/timeline/"
  /\ DateText.is_yyyy_mm_dd first = true
  /\ DateText.is_yyyy_mm_dd last = true.
Proof.
  intros Hy Hm first last.
  destruct (resolve_four_digit_year year month Hy Hm) as (Hr & Hfirst & Hlast).
  rewrite fetch_sent, Hr. repeat split; assumption.
Qed.

Lemma fetch_sends_one_request_witness :
  sent (snd (fetch_monthly_data (serve PNone) "Chennai" 2025 11 "key" empty_world))
  = [mk_request GET
       (TIMELINE +:+ "Chennai" +:+ "/" +:+ "2025-11-01" +:+ "/" +:+ "2025-11-30")
       [("key", "key"); ("include", "days"); ("unitGroup", "metric");
        ("contentType", "json");
        ("elements", "datetime,tempmax,tempmin,temp,conditions,precip")]
       10].
Proof.
  exact (proj1 (fetch_sends_one_request (serve PNone) "Chennai" 2025 11 "key"
                  empty_world ltac:(lia) ltac:(lia))).
Defined.

(** ** Failures of the request *)

Lemma http_error_msg_spec `{Libraries} (r : Response) :
  400 <= status_code r < 600 ->
  http_error_msg r
  = Some (PyFormat.str_int (status_code r)
          +:+ (if status_code r <? 500 then " Client Error: " else " Server Error: ")
          +:+ reason r +:+ " for url: " +:+ response_url r).
Proof.
  intros Hs. unfold http_error_msg.
  destruct (Z.ltb_spec (status_code r) 500).
  - rewrite (proj2 (Z.leb_le 400 _)) by lia. reflexivity.
  - rewrite andb_false_r.
    rewrite (proj2 (Z.leb_le 500 _)), (proj2 (Z.ltb_lt _ 600)) by lia. reflexivity.
Qed.

Lemma http_error_msg_none `{Libraries} (r : Response) :
  ~ 400 <= status_code r < 600 -> http_error_msg r = None.
Proof.
  intros Hs. unfold http_error_msg.
  destruct (Z.leb_spec 400 (status_code r)), (Z.ltb_spec (status_code r) 500),
    (Z.leb_spec 500 (status_code r)), (Z.ltb_spec (status_code r) 600);
    simpl; try reflexivity; lia.
Qed.

(** C6, counterexample: the status 300 is not in the 200s, and the fetch
    returns the data of the body and shows no message. *)
Lemma status_300_returns_data :
  let payload := PDict [("days", PList [day_entry "2025-11-01" None])] in
  let run :=
    fetch_monthly_data (serve_status 300 payload) "Chennai" 2025 11 "key" empty_world in
  ~ 200 <= 300 < 300
  /\ (exists df, fst run = Ok (Some df) /\ index_len df = 1%nat)
  /\ shown (snd run) = [].
Proof.
  split; [lia|]. split; [|reflexivity].
  eexists. split; reflexivity.
Qed.

(** C6, as amended.  A failure of the request that the HTTP library
    raises (DNS, connection refused, timeout) and an HTTP status in the 400s
    or the 500s make the fetch return the failure outcome, with no data,
    after showing a message that includes the underlying cause. *)
Theorem request_failure_reported `{Libraries} (net : Network) (city : string)
    (year month : Z) (api_key : string) (w : World) (range : DateRange)
    (cause : string) :
  resolve year month = Ok range ->
  let req := build_request city range api_key in
  (net (length (sent w)) req = Raise (RequestException cause)
   \/ exists response,
        net (length (sent w)) req = Ok response
        /\ 400 <= status_code response < 600
        /\ cause
           = PyFormat.str_int (status_code response)
             +:+ (if status_code response <? 500
                  then " Client Error: " else " Server Error: ")
             +:+ reason response +:+ " for url: " +:+ response_url response) ->
  fetch_monthly_data net city year month api_key w
  = (Ok None,
     mk_world (sent w ++ [req])
       (shown w ++ ["API Request Failed: " +:+ cause
                    +:+ ". Check city name or API key."])).
Proof.
  intros Hr req Hfail. rewrite (fetch_run _ _ _ _ _ _ _ Hr). fold req.
  unfold outcome.
  destruct Hfail as [Hnet | (response & Hnet & Hstatus & ->)]; rewrite Hnet; cbn [rbind].
  - reflexivity.
  - unfold raise_for_status. rewrite (http_error_msg_spec _ Hstatus). reflexivity.
Qed.

Lemma request_failure_reported_witness :
  fetch_monthly_data (refuse (RequestException "Read timed out."))
    "Chennai" 2025 11 "key" empty_world
  = (Ok None,
     mk_world
       [build_request "Chennai" (mk_range "2025-11-01" "2025-11-30") "key"]
       ["API Request Failed: Read timed out.. Check city name or API key."]).
Proof.
  exact (request_failure_reported (refuse (RequestException "Read timed out."))
           "Chennai" 2025 11 "key" empty_world
           (mk_range "2025-11-01" "2025-11-30") "Read timed out."
           eq_refl (or_introl eq_refl)).
Defined.

(** ** Payloads of the wrong shape *)

Lemma normalize_without_days `{Libraries} (payload : pyval) :
  field "days" payload = None ->
  exists e, normalize payload = Raise e
    /\ (forall items, payload = PDict items ->
          match dict_lookup "message" items with
          | Some m =>
              match py_str m with
              | Ok text => e = ValueError ("API Error: " +:+ text)
              | Raise e' => e = e'
              end
          | None => e = ValueError "API Error: Invalid response"
          end)
    /\ ((forall items, payload <> PDict items) ->
        exists cause, e = TypeError cause \/ e = AttributeError cause).
Proof.
  intros Hdays. unfold normalize.
  destruct payload as [| b | n | x | s | items | items]; simpl in *;
    try (eexists; split; [reflexivity | split; [discriminate | eauto]]).
  - destruct (is_substring "days" s); simpl;
      (eexists; split; [reflexivity | split; [discriminate | eauto]]).
  - destruct (existsb (is_str "days") items); simpl;
      (eexists; split; [reflexivity | split; [discriminate | eauto]]).
  - rewrite Hdays. simpl.
    destruct (dict_lookup "message" items) as [m|] eqn:Hm; simpl.
    + destruct (py_str m) as [text|e'] eqn:Hs; simpl;
        (eexists; split; [reflexivity|]; split;
         [intros items' [= <-]; now rewrite Hm, Hs
         |intros Hno; now destruct (Hno items)]).
    + eexists. split; [reflexivity|]. split.
      * intros items' [= <-]. now rewrite Hm.
      * intros Hno. now destruct (Hno items).
Qed.

(** C5.  For every payload that lacks the top-level field "days" the fetch
    returns the failure outcome (it neither raises nor returns a frame)
    after showing one message.  When the payload is an object with a field
    "message", the message shown carries the text of that field: the very
    text when the field is a string, and what Python prints for it
    otherwise.  When the payload is an object without that field, the
    message shown carries the words "Invalid response"; when it is not an
    object, the text of the [TypeError] or [AttributeError] of Python. *)
Theorem missing_days_is_failure `{Libraries} (net : Network) (city : string)
    (year month : Z) (api_key : string) (w : World) (payload : pyval) :
  received net w city year month api_key payload ->
  field "days" payload = None ->
  exists req msg,
    fetch_monthly_data net city year month api_key w = (Ok None, after w req [msg])
    /\ (forall text, field "message" payload = Some (PStr text) ->
          msg = "Unexpected Error: API Error: " +:+ text)
    /\ (forall m text, field "message" payload = Some m -> py_str m = Ok text ->
          msg = "Unexpected Error: API Error: " +:+ text)
    /\ (forall items, payload = PDict items -> dict_lookup "message" items = None ->
          msg = "Unexpected Error: API Error: Invalid response")
    /\ ((forall items, payload <> PDict items) ->
        exists cause,
          (normalize payload = Raise (TypeError cause)
           \/ normalize payload = Raise (AttributeError cause))
          /\ msg = "Unexpected Error: " +:+ cause).
Proof.
  intros Hrec Hdays.
  destruct (fetch_received _ _ _ _ _ _ _ Hrec) as (req & Hrun).
  destruct (normalize_without_days payload Hdays) as (e & Hnorm & Hobj & Hother).
  rewrite Hnorm in Hrun. exists req, (error_message e). split; [exact Hrun|].
  assert (Hshown : forall m text, field "message" payload = Some m ->
            py_str m = Ok text ->
            error_message e = "Unexpected Error: API Error: " +:+ text).
  { intros m text Hm Hs.
    destruct payload as [| b | n | x | s | items' | items]; try discriminate.
    simpl in Hm. specialize (Hobj items eq_refl). rewrite Hm, Hs in Hobj.
    now subst e. }
  split; [|split; [exact Hshown|split]].
  - intros text Hm. exact (Hshown (PStr text) text Hm eq_refl).
  - intros items -> Hm. specialize (Hobj items eq_refl). rewrite Hm in Hobj.
    now subst e.
  - intros Hno. destruct (Hother Hno) as (cause & [->| ->]);
      exists cause; (split; [tauto | reflexivity]).
Qed.

Lemma received_served `{Libraries} (payload : pyval) :
  received (serve payload) empty_world "Chennai" 2025 11 "key" payload.
Proof.
  exists (mk_range "2025-11-01" "2025-11-30"), (mk_response 200 "OK" "" (Ok payload)).
  repeat split.
Qed.

Lemma missing_days_is_failure_witness :
  exists req,
    fetch_monthly_data (serve (PDict [("message", PStr "Invalid API key")]))
      "Chennai" 2025 11 "key" empty_world
    = (Ok None,
       after empty_world req ["Unexpected Error: API Error: Invalid API key"]).
Proof.
  destruct (missing_days_is_failure (serve (PDict [("message", PStr "Invalid API key")]))
              "Chennai" 2025 11 "key" empty_world _
              (received_served _) eq_refl) as (req & msg & Hrun & Htext & _).
  exists req. rewrite Hrun. now rewrite (Htext "Invalid API key" eq_refl).
Defined.

Lemma rmapM_raise {A B : Type} (f : A -> result B) (l : list A) :
  Exists (fun a => exists e, f a = Raise e) l -> exists e, rmapM f l = Raise e.
Proof.
  induction 1 as [a l (e & He) | a l _ (e & IH)]; simpl.
  - rewrite He. eauto.
  - destruct (f a); simpl; [|eauto]. rewrite IH. eauto.
Qed.

(** An entry without one of the required fields has no row. *)
Lemma day_row_missing `{Libraries} (entry : pyval) :
  Exists (fun key => field key entry = None) REQUIRED ->
  exists e, day_row entry = Raise e.
Proof.
  intros Hmiss. unfold day_row.
  destruct entry as [| b | n | x | s | items | items];
    try (simpl; eauto; fail).
  simpl in Hmiss. simpl py_getitem.
  destruct (dict_lookup "datetime" items) eqn:E1; [|simpl; eauto].
  destruct (dict_lookup "tempmax" items) eqn:E2; [|simpl; eauto].
  destruct (dict_lookup "tempmin" items) eqn:E3; [|simpl; eauto].
  destruct (dict_lookup "temp" items) eqn:E4; [|simpl; eauto].
  destruct (dict_lookup "conditions" items) eqn:E5; [|simpl; eauto].
  exfalso. unfold REQUIRED in Hmiss.
  repeat match goal with
         | H : Exists _ (_ :: _) |- _ => apply Exists_cons in H as [H|H]
         | H : Exists _ [] |- _ => apply Exists_nil in H
         end; congruence.
Qed.

(** C3.  For every payload whose list of days holds an entry that misses
    one of the fields datetime, tempmax, tempmin, temp and conditions, the
    fetch returns the failure outcome, with no frame at all, after showing
    one message: no row is kept and none is skipped. *)
Theorem missing_field_fails_whole_fetch `{Libraries} (net : Network)
    (city : string) (year month : Z) (api_key : string) (w : World)
    (payload : pyval) (entries : list pyval) :
  received net w city year month api_key payload ->
  field "days" payload = Some (PList entries) ->
  Exists (fun entry => Exists (fun key => field key entry = None) REQUIRED) entries ->
  exists req msg,
    fetch_monthly_data net city year month api_key w = (Ok None, after w req [msg]).
Proof.
  intros Hrec Hdays Hmiss.
  destruct (fetch_received _ _ _ _ _ _ _ Hrec) as (req & Hrun).
  assert (Hnorm : exists e, normalize payload = Raise e).
  { destruct payload as [| b | n | x | s | items' | items]; try discriminate.
    simpl in Hdays. unfold normalize. simpl. rewrite Hdays. simpl.
    destruct (rmapM_raise day_row entries) as (e & ->); [|simpl; eauto].
    eapply Exists_impl; [exact Hmiss|]. intros entry. apply day_row_missing. }
  destruct Hnorm as (e & Hnorm). rewrite Hnorm in Hrun. eauto.
Qed.

Lemma missing_field_fails_whole_fetch_witness :
  exists req msg,
    fetch_monthly_data
      (serve (PDict [("days", PList [day_entry "2025-11-01" None;
                                     PDict [("datetime", PStr "2025-11-02")]])]))
      "Chennai" 2025 11 "key" empty_world
    = (Ok None, after empty_world req [msg]).
Proof.
  apply (missing_field_fails_whole_fetch _ "Chennai" 2025 11 "key" empty_world
           (PDict [("days", PList [day_entry "2025-11-01" None;
                                   PDict [("datetime", PStr "2025-11-02")]])])
           [day_entry "2025-11-01" None; PDict [("datetime", PStr "2025-11-02")]]).
  - apply received_served.
  - reflexivity.
  - apply Exists_cons_tl, Exists_cons_hd, Exists_cons_tl, Exists_cons_hd.
    reflexivity.
Defined.

(** ** Well-formed payloads *)

Lemma rmapM_ok {A B : Type} (f : A -> result B) (g : A -> B) (l : list A) :
  Forall (fun a => f a = Ok (g a)) l -> rmapM f l = Ok (map g l).
Proof.
  induction 1 as [|a l Ha _ IH]; simpl; [reflexivity|].
  now rewrite Ha, IH.
Qed.

Lemma day_row_ok `{Libraries} (entry : pyval) :
  has_required entry -> day_row entry = Ok (row_of entry).
Proof.
  unfold has_required, REQUIRED. intros Hreq.
  repeat match goal with
         | H : Forall _ (_ :: _) |- _ => apply Forall_cons in H as [[? ?] H]
         end.
  destruct entry as [| b | n | fl | s | items | items]; try discriminate.
  simpl in *. unfold day_row, row_of. simpl.
  repeat match goal with
         | H : dict_lookup _ _ = Some _ |- _ => rewrite H; clear H
         end.
  reflexivity.
Qed.

Lemma frame_labels_rows `{Libraries} (entries : list pyval) :
  entries <> [] ->
  frame_labels (map row_of entries)
  = ["Date"; "Max Temp (°C)"; "Min Temp (°C)"; "Avg Temp (°C)"; "Conditions";
     "Precip (mm)"].
Proof.
  set (labels := ["Date"; "Max Temp (°C)"; "Min Temp (°C)"; "Avg Temp (°C)";
                  "Conditions"; "Precip (mm)"]).
  assert (Hstep : forall seen entry,
             foldl add_key seen (map fst (row_of entry)) = foldl add_key seen labels)
    by reflexivity.
  assert (Hfirst : foldl add_key [] labels = labels) by (vm_compute; reflexivity).
  assert (Hnext : foldl add_key labels labels = labels) by (vm_compute; reflexivity).
  set (step := fun seen (record : list (string * pyval)) =>
                 foldl add_key seen (map fst record)).
  assert (Hrest : forall rest, foldl step labels (map row_of rest) = labels).
  { induction rest as [|entry rest IH]; [reflexivity|].
    change (foldl step labels (map row_of (entry :: rest)))
      with (foldl step (foldl add_key labels (map fst (row_of entry)))
              (map row_of rest)).
    now rewrite Hstep, Hnext. }
  intros Hne. destruct entries as [|entry rest]; [congruence|].
  change (frame_labels (map row_of (entry :: rest)))
    with (foldl step (foldl add_key [] (map fst (row_of entry))) (map row_of rest)).
  now rewrite Hstep, Hfirst.
Qed.

(** The frame built from the rows of the entries, before the dates are read. *)
Lemma pd_DataFrame_rows `{Libraries} (entries : list pyval) :
  entries <> [] ->
  pd_DataFrame (map row_of entries)
  = df_setitem (expected_frame entries []) "Date" (date_column entries).
Proof.
  intros Hne. unfold pd_DataFrame, expected_frame, df_setitem, date_column.
  rewrite (frame_labels_rows entries Hne), length_map.
  unfold label_values, field_values. simpl. rewrite !map_map. reflexivity.
Qed.

(** A list of days with at least one entry, every entry with its required
    fields, and whose dates the library reads, is normalised to one row per
    entry, in the order of the entries. *)
Lemma normalize_days `{Libraries} (payload : pyval) (entries : list pyval)
    (stamps : list (option Timestamp)) :
  field "days" payload = Some (PList entries) ->
  entries <> [] ->
  Forall has_required entries ->
  dates_read entries stamps ->
  normalize payload = Ok (expected_frame entries stamps).
Proof.
  intros Hdays Hne Hreq Hdated.
  destruct payload as [| b | n | fl | s | items' | items]; try discriminate.
  simpl in Hdays. unfold normalize. simpl. rewrite Hdays. simpl.
  rewrite (rmapM_ok day_row row_of)
    by (eapply Forall_impl; [exact Hreq | intros entry; apply day_row_ok]).
  simpl. rewrite (pd_DataFrame_rows entries Hne).
  simpl. unfold pd_to_datetime. unfold dates_read in Hdated. rewrite Hdated.
  reflexivity.
Qed.

Lemma length_pd_Series `{Libraries} (values : list pyval) :
  length (pd_Series values) = length values.
Proof. unfold pd_Series. apply length_map. Qed.

Lemma dates_read_length `{Libraries} (entries : list pyval)
    (stamps : list (option Timestamp)) :
  dates_read entries stamps -> length stamps = length entries.
Proof.
  intros Hd. apply to_datetime_length in Hd. rewrite Hd.
  unfold date_column, field_values. now rewrite length_pd_Series, length_map.
Qed.

(** Every column of the frame of a list of entries has one cell per entry. *)
Lemma expected_frame_lengths `{Libraries} (entries : list pyval)
    (stamps : list (option Timestamp)) :
  dates_read entries stamps ->
  Forall (fun col => length (snd col) = length entries)
    (columns (expected_frame entries stamps)).
Proof.
  intros Hd. unfold expected_frame, field_values. simpl.
  repeat apply List.Forall_cons; try apply List.Forall_nil; simpl;
    rewrite ?length_pd_Series, !length_map; try reflexivity.
  now apply dates_read_length.
Qed.

Lemma day_entry_has_required (date : string) (precip : option pyval) :
  has_required (day_entry date precip).
Proof. repeat constructor; eexists; reflexivity. Qed.

(** C7.  The list of days of a well-formed payload may be empty: each of
    its entries, there being none, has its required fields.  The claim
    then asks for a successful result with no record.  The fetch returns
    the failure outcome instead, after showing "Unexpected Error: 'Date'",
    and it returns no frame at all. *)
Theorem well_formed_empty_days_fail `{Libraries} (net : Network) (city : string)
    (year month : Z) (api_key : string) (w : World)
    (payload : pyval) (entries : list pyval) :
  received net w city year month api_key payload ->
  field "days" payload = Some (PList entries) ->
  entries = [] ->
  Forall has_required entries
  /\ (exists req,
        fetch_monthly_data net city year month api_key w
        = (Ok None, after w req ["Unexpected Error: 'Date'"]))
  /\ (forall df,
        fst (fetch_monthly_data net city year month api_key w) <> Ok (Some df)).
Proof.
  intros Hrec Hdays ->. split; [constructor|].
  destruct (fetch_received _ _ _ _ _ _ _ Hrec) as (req & Hrun).
  assert (Hnorm : normalize payload = Raise (KeyError "Date")).
  { destruct payload as [| b | n | fl | s | items' | items]; try discriminate.
    simpl in Hdays. unfold normalize. simpl. now rewrite Hdays. }
  rewrite Hnorm in Hrun. split.
  - exists req. exact Hrun.
  - intros df. rewrite Hrun. discriminate.
Qed.

Lemma well_formed_empty_days_fail_witness :
  exists req,
    fetch_monthly_data (serve (PDict [("days", PList [])]))
      "Chennai" 2025 11 "key" empty_world
    = (Ok None, after empty_world req ["Unexpected Error: 'Date'"]).
Proof.
  exact (proj1 (proj2 (well_formed_empty_days_fail (serve (PDict [("days", PList [])]))
                         "Chennai" 2025 11 "key" empty_world
                         (PDict [("days", PList [])]) []
                         (received_served _) eq_refl eq_refl))).
Defined.

(** ** Precipitation *)

(** C1, counterexample: an entry whose field precip is null gives a record
    whose precipitation is null, not 0; the fetch succeeds, and the frame
    holds the null.  Next to an entry with a number, the null is stored as
    [NaN], and again not as 0. *)
Lemma null_precip_is_kept :
  let entry := day_entry "2025-11-01" (Some PNone) in
  let run :=
    fetch_monthly_data (serve (PDict [("days", PList [entry])]))
      "Chennai" 2025 11 "key" empty_world in
  let run2 :=
    fetch_monthly_data
      (serve (PDict [("days", PList [day_entry "2025-11-01" (Some (PInt 3));
                                     day_entry "2025-11-02" (Some PNone)])]))
      "Chennai" 2025 11 "key" empty_world in
  field "precip" entry = Some PNone
  /\ (exists row, day_row entry = Ok row
        /\ dict_lookup "Precip (mm)" row = Some PNone)
  /\ (exists df, fst run = Ok (Some df)
        /\ column "Precip (mm)" df = [Obj PNone]
        /\ column "Precip (mm)" df <> [Int64 0]
        /\ column "Precip (mm)" df <> [Obj (PInt 0)])
  /\ exists df, fst run2 = Ok (Some df)
       /\ column "Precip (mm)" df !! 1%nat = Some (Float64 S754_nan).
Proof.
  split; [reflexivity|]. split; [eexists; split; reflexivity|]. split.
  - eexists. split; [reflexivity|].
    split; [reflexivity | split; discriminate].
  - eexists. split; reflexivity.
Qed.

(** C1, as amended.  For every entry of the list of days, the
    precipitation of the record built for it is the value of the field
    precip of the entry whenever the entry has that field, and 0 when the
    entry has no such field; a missing precip does not make the fetch
    fail.  In the frame, the precipitation of the row of the entry is that
    value as the column stores it: the column of precipitation is built
    from these values, in the order of the entries, and a row without
    precip cannot be told from a row whose precip is 0. *)
Theorem precipitation_defaults_when_missing `{Libraries} (net : Network)
    (city : string) (year month : Z) (api_key : string) (w : World)
    (payload : pyval) (entries : list pyval) (stamps : list (option Timestamp))
    (i : nat) (entry : pyval) :
  received net w city year month api_key payload ->
  field "days" payload = Some (PList entries) ->
  Forall has_required entries ->
  dates_read entries stamps ->
  entries !! i = Some entry ->
  let value := match field "precip" entry with
               | Some v => v
               | None => PInt 0
               end in
  (exists row, day_row entry = Ok row /\ dict_lookup "Precip (mm)" row = Some value)
  /\ exists req df,
       fetch_monthly_data net city year month api_key w = (Ok (Some df), after w req [])
       /\ column "Precip (mm)" df
          = pd_Series (map (fun e => match field "precip" e with
                                     | Some v => v
                                     | None => PInt 0
                                     end) entries)
       /\ column "Precip (mm)" df !! i
          = Some (convert (infer_dtype (field_values "precip" (PInt 0) entries)) value).
Proof.
  intros Hrec Hdays Hreq Hdated Hi value.
  assert (Hne : entries <> []) by (intros ->; discriminate).
  assert (Hentry : has_required entry).
  { apply (proj1 (Forall_forall _ _) Hreq).
    eapply list_elem_of_lookup_2. exact Hi. }
  split.
  { exists (row_of entry). split; [now apply day_row_ok|].
    unfold row_of, value. simpl. now destruct (field "precip" entry). }
  destruct (fetch_received _ _ _ _ _ _ _ Hrec) as (req & Hrun).
  rewrite (normalize_days payload entries stamps Hdays Hne Hreq Hdated) in Hrun.
  exists req, (expected_frame entries stamps). split; [exact Hrun|].
  unfold column, expected_frame. simpl. split.
  - reflexivity.
  - assert (Hv : field_values "precip" (PInt 0) entries !! i = Some value).
    { unfold field_values. rewrite list_lookup_fmap, Hi. simpl. unfold value.
      now destruct (field "precip" entry). }
    unfold pd_Series. rewrite list_lookup_fmap, Hv. reflexivity.
Qed.

Lemma precipitation_defaults_when_missing_witness :
  exists req df,
    fetch_monthly_data
      (serve (PDict [("days", PList [day_entry "2025-11-01" None])]))
      "Chennai" 2025 11 "key" empty_world
    = (Ok (Some df), after empty_world req [])
    /\ column "Precip (mm)" df = [Int64 0].
Proof.
  destruct (@precipitation_defaults_when_missing iso_runtime
              (serve (PDict [("days", PList [day_entry "2025-11-01" None])]))
              "Chennai" 2025 11 "key" empty_world
              (PDict [("days", PList [day_entry "2025-11-01" None])])
              [day_entry "2025-11-01" None]
              [Some (Calendar.mk_datetime 2025 11 1)] 0 (day_entry "2025-11-01" None))
    as (_ & req & df & Hrun & Hcol & _).
  - apply received_served.
  - reflexivity.
  - repeat (apply List.Forall_cons; [apply day_entry_has_required|]).
    apply List.Forall_nil.
  - reflexivity.
  - reflexivity.
  - exists req, df. split; [exact Hrun | exact Hcol].
Defined.

(** ** An empty list of days *)

Lemma replace_column_not_nil `{Libraries} (label : string)
    (series : list (cell Timestamp)) (cols : list (string * list (cell Timestamp))) :
  replace_column label series cols <> [].
Proof.
  destruct cols as [|[l c] cols]; simpl; [discriminate|].
  destruct (String.eqb l label); discriminate.
Qed.

(** A frame that [normalize] returns is never empty. *)
Lemma normalize_not_empty `{Libraries} (data : pyval) (df : DataFrame) :
  normalize data = Ok df -> df_empty df = false.
Proof.
  unfold normalize. intros Hn.
  destruct (py_contains "days" data) as [has|]; [|discriminate]. simpl in Hn.
  destruct has; simpl in Hn.
  2:{ destruct (py_get data "message" (PStr "Invalid response")) as [m|];
        [|discriminate]. simpl in Hn. destruct (py_str m); discriminate. }
  destruct (py_getitem data "days") as [days|]; [|discriminate]. simpl in Hn.
  destruct (py_iter days) as [entries|]; [|discriminate]. simpl in Hn.
  destruct (rmapM day_row entries) as [rows|]; [|discriminate]. simpl in Hn.
  destruct rows as [|row rows]; [discriminate|].
  destruct (df_getitem _ "Date") as [dates|]; [|discriminate]. simpl in Hn.
  destruct (pd_to_datetime dates) as [stamps|]; [|discriminate].
  injection Hn as <-. unfold df_empty, df_setitem. simpl.
  rewrite bool_decide_eq_false_2; [reflexivity | apply replace_column_not_nil].
Qed.

(** Whatever the network answers, a frame that the fetch returns is not
    empty: the test [not df.empty] of line 87 never fails. *)
Lemma fetch_never_returns_empty `{Libraries} (net : Network) (city : string)
    (year month : Z) (api_key : string) (w : World) (df : DataFrame) :
  fst (fetch_monthly_data net city year month api_key w) = Ok (Some df) ->
  df_empty df = false.
Proof.
  destruct (resolve year month) as [range|e] eqn:Hr.
  - rewrite (fetch_run _ _ _ _ _ _ _ Hr). unfold outcome.
    destruct (net _ _) as [response|]; simpl; [|discriminate].
    destruct (raise_for_status response); simpl; [|discriminate].
    destruct (json response) as [data|]; simpl; [|discriminate].
    destruct (normalize data) as [df'|] eqn:Hn; simpl; [|discriminate].
    intros [= <-]. exact (normalize_not_empty data df' Hn).
  - rewrite (fetch_raise _ _ _ _ _ _ _ Hr). discriminate.
Qed.

(** C10.  When the payload holds a field days with an empty list, the
    frame built from no row has no column, reading its column "Date"
    raises [KeyError], and the fetch returns the failure outcome after
    showing "Unexpected Error: 'Date'": it is not an empty success.  The
    branch of the handler stops for the failure outcome as it would for an
    empty frame. *)
Theorem empty_days_is_a_failure `{Libraries} (net : Network) (city : string)
    (year month : Z) (api_key : string) (w : World) (payload : pyval) :
  received net w city year month api_key payload ->
  field "days" payload = Some (PList []) ->
  (exists req,
     fetch_monthly_data net city year month api_key w
     = (Ok None, after w req ["Unexpected Error: 'Date'"]))
  /\ present year month None = Ok Stopped
  /\ (forall df, df_empty df = true -> present year month (Some df) = Ok Stopped).
Proof.
  intros Hrec Hdays. split; [|split].
  - destruct (fetch_received _ _ _ _ _ _ _ Hrec) as (req & Hrun).
    exists req. rewrite Hrun.
    destruct payload as [| b | n | fl | s | items' | items]; try discriminate.
    simpl in Hdays. unfold normalize. simpl. rewrite Hdays. reflexivity.
  - reflexivity.
  - intros df Hempty. unfold present. now rewrite Hempty.
Qed.

Lemma empty_days_is_a_failure_witness :
  exists req,
    fetch_monthly_data (serve (PDict [("days", PList [])]))
      "Chennai" 2025 11 "key" empty_world
    = (Ok None, after empty_world req ["Unexpected Error: 'Date'"]).
Proof.
  exact (proj1 (empty_days_is_a_failure (serve (PDict [("days", PList [])]))
                  "Chennai" 2025 11 "key" empty_world (PDict [("days", PList [])])
                  (received_served _) eq_refl)).
Defined.

(** ** The cache *)



Lemma cached_hit `{Libraries} (net : Network) (now : Z) (city : string)
    (year month : Z) (api_key : string) (s : Session) (entry : CacheEntry) :
  live_entry s (city, year, month, api_key) now = Some entry ->
  cached_fetch_monthly_data net now city year month api_key s
  = (Ok (cached_value entry),
     mk_session
       (mk_world (sent (world s)) (shown (world s) ++ cached_messages entry))
       (cache s)).
Proof. intros Hlive. unfold cached_fetch_monthly_data. now rewrite Hlive. Qed.

Lemma cached_miss `{Libraries} (net : Network) (now : Z) (city : string)
    (year month : Z) (api_key : string) (s : Session) :
  live_entry s (city, year, month, api_key) now = None ->
  cached_fetch_monthly_data net now city year month api_key s
  = match fetch_monthly_data net city year month api_key (world s) with
    | (Ok value, w') =>
        (Ok value,
         mk_session w'
           (<[(city, year, month, api_key) :=
                mk_entry now value (drop (length (shown (world s))) (shown w'))]>
              (cache s)))
    | (Raise e, w') => (Raise e, mk_session w' (cache s))
    end.
Proof. intros Hlive. unfold cached_fetch_monthly_data. now rewrite Hlive. Qed.



(** * Further properties of the code *)

(** ** What one call does *)

(** X1.  A call of [fetch_monthly_data] either leaves through an exception
    of range resolution, before anything is sent or shown, or returns
    after sending exactly one request, the one built from the range: with a
    frame and no message, or with [None] and exactly one message.  Nothing
    raised by the network, by the payload or by the reading of the dates
    leaves the function, and no request is sent twice. *)
Theorem fetch_outcome `{Libraries} (net : Network) (city : string)
    (year month : Z) (api_key : string) (w : World) :
  match resolve year month with
  | Raise e => fetch_monthly_data net city year month api_key w = (Raise e, w)
  | Ok range =>
      let req := build_request city range api_key in
      (exists df,
         fetch_monthly_data net city year month api_key w
         = (Ok (Some df), mk_world (sent w ++ [req]) (shown w)))
      \/ (exists msg,
            fetch_monthly_data net city year month api_key w
            = (Ok None, mk_world (sent w ++ [req]) (shown w ++ [msg])))
  end.
Proof.
  destruct (resolve year month) as [range|e] eqn:Hr.
  - rewrite (fetch_run _ _ _ _ _ _ _ Hr). unfold after.
    destruct (outcome _ _ _) as [df|e]; [left | right].
    + exists df. now rewrite app_nil_r.
    + eauto.
  - now apply fetch_raise.
Qed.

(** ** What a success tells *)

Lemma rmapM_inv {A B : Type} (f : A -> result B) (l : list A) (bs : list B) :
  rmapM f l = Ok bs -> Forall2 (fun a b => f a = Ok b) l bs.
Proof.
  revert bs. induction l as [|a l IH]; simpl; intros bs Hm.
  - injection Hm as <-. constructor.
  - destruct (f a) as [b|] eqn:Hb; [|discriminate]. simpl in Hm.
    destruct (rmapM f l) as [bs'|]; [|discriminate]. simpl in Hm.
    injection Hm as <-. constructor; [exact Hb | now apply IH].
Qed.

(** A row is only built for an object that has the five required fields. *)
Lemma day_row_inv `{Libraries} (entry : pyval) (row : list (string * pyval)) :
  day_row entry = Ok row -> has_required entry /\ row = row_of entry.
Proof.
  unfold day_row. intros Hrow.
  destruct entry as [| b | n | fl | s | items' | items]; try discriminate.
  simpl in Hrow.
  destruct (dict_lookup "datetime" items) eqn:E1; [|discriminate].
  destruct (dict_lookup "tempmax" items) eqn:E2; [|discriminate].
  destruct (dict_lookup "tempmin" items) eqn:E3; [|discriminate].
  destruct (dict_lookup "temp" items) eqn:E4; [|discriminate].
  destruct (dict_lookup "conditions" items) eqn:E5; [|discriminate].
  simpl in Hrow. injection Hrow as <-. split.
  - unfold has_required, REQUIRED. simpl.
    repeat (apply List.Forall_cons; [eauto|]). apply List.Forall_nil.
  - unfold row_of. simpl. now rewrite E1, E2, E3, E4, E5.
Qed.

Lemma day_rows_inv `{Libraries} (entries : list pyval)
    (rows : list (list (string * pyval))) :
  rmapM day_row entries = Ok rows ->
  Forall has_required entries /\ rows = map row_of entries.
Proof.
  intros Hm. apply rmapM_inv in Hm.
  induction Hm as [|entry row entries rows Hrow _ [IH1 IH2]]; [split; constructor|].
  destruct (day_row_inv entry row Hrow) as [Hreq ->].
  split; [now constructor | simpl; now rewrite IH2].
Qed.

Lemma strings_have_no_row `{Libraries} (l : list pyval) (rows : list (list (string * pyval))) :
  Forall (fun v => exists s, v = PStr s) l ->
  rmapM day_row l = Ok rows -> l = [] /\ rows = [].
Proof.
  intros Hall Hm. destruct Hall as [|v l (s & ->) _].
  - simpl in Hm. injection Hm as <-. split; reflexivity.
  - discriminate Hm.
Qed.

(** The frame of a payload comes from a list of days that is not empty, all
    of whose entries have the required fields, and whose column of dates
    the library has read. *)
Lemma normalize_success `{Libraries} (data : pyval) (df : DataFrame) :
  normalize data = Ok df ->
  exists entries stamps,
    field "days" data = Some (PList entries)
    /\ entries <> []
    /\ Forall has_required entries
    /\ dates_read entries stamps
    /\ df = expected_frame entries stamps.
Proof.
  unfold normalize. intros Hn.
  destruct (py_contains "days" data) as [has|] eqn:Hc; [|discriminate]. simpl in Hn.
  destruct has; simpl in Hn.
  2:{ destruct (py_get data "message" (PStr "Invalid response")) as [m|];
        [|discriminate]. simpl in Hn. destruct (py_str m); discriminate. }
  destruct (py_getitem data "days") as [days|] eqn:Hdays; [|discriminate].
  simpl in Hn.
  destruct data as [| b | n | fl | s | items' | items]; try discriminate.
  simpl in Hdays. destruct (dict_lookup "days" items) as [days'|] eqn:Hl; [|discriminate].
  injection Hdays as ->.
  destruct (py_iter days) as [l|] eqn:Hiter; [|discriminate]. simpl in Hn.
  destruct (rmapM day_row l) as [rows|] eqn:Hrows; [|discriminate]. simpl in Hn.
  assert (Hne : rows <> []).
  { intros ->. discriminate Hn. }
  assert (Hlist : days = PList l).
  { destruct days as [| b | n | fl | s | entries | items']; try discriminate.
    - injection Hiter as <-.
      destruct (strings_have_no_row (chars s) rows) as [_ ?]; [|exact Hrows|contradiction].
      clear. induction s; simpl; constructor; eauto.
    - now injection Hiter as <-.
    - injection Hiter as <-.
      destruct (strings_have_no_row
                  (map (fun kv : string * pyval => PStr (fst kv)) items') rows)
        as [_ ?]; [|exact Hrows|contradiction].
      clear. induction items' as [|[k v] items' IH]; simpl; constructor; eauto. }
  subst days.
  destruct (day_rows_inv l rows Hrows) as [Hreq ->].
  assert (Hl' : l <> []) by (intros ->; apply Hne; reflexivity).
  rewrite (pd_DataFrame_rows l Hl') in Hn. simpl in Hn.
  unfold pd_to_datetime in Hn.
  destruct (to_datetime (date_column l)) as [stamps|] eqn:Hstamps; [|discriminate].
  injection Hn as <-.
  exists l, stamps. simpl. rewrite Hl. repeat split; assumption.
Qed.

(** A frame comes back only when the request went through and brought a
    payload. *)
Lemma fetch_success_received `{Libraries} (net : Network) (city : string)
    (year month : Z) (api_key : string) (w : World) (df : DataFrame) :
  fst (fetch_monthly_data net city year month api_key w) = Ok (Some df) ->
  exists payload,
    received net w city year month api_key payload /\ normalize payload = Ok df.
Proof.
  destruct (resolve year month) as [range|e] eqn:Hr.
  - rewrite (fetch_run _ _ _ _ _ _ _ Hr). unfold outcome.
    destruct (net _ _) as [response|] eqn:Hnet; simpl; [|discriminate].
    unfold raise_for_status.
    destruct (http_error_msg response) eqn:Hstatus; simpl; [discriminate|].
    destruct (json response) as [data|] eqn:Hjson; simpl; [|discriminate].
    destruct (normalize data) as [df'|] eqn:Hn; simpl; [|discriminate].
    intros [= <-]. exists data. split; [|exact Hn].
    exists range, response. repeat split; assumption.
  - rewrite (fetch_raise _ _ _ _ _ _ _ Hr). discriminate.
Qed.

(** X2.  Whenever [fetch_monthly_data] returns a frame, the request went
    through, the payload is an object whose field days holds a list that
    is not empty, every entry of the list is an object with the five
    required fields, the library has read the column of their dates (a
    position of which may be [NaT]), and the frame is the one with the six
    columns of lines 62-69, one row per entry in the order of the list,
    each column being built from the values of one field: fields of an
    entry beyond the six are dropped. *)
Theorem fetch_success_inversion `{Libraries} (net : Network) (city : string)
    (year month : Z) (api_key : string) (w : World) (df : DataFrame) :
  fst (fetch_monthly_data net city year month api_key w) = Ok (Some df) ->
  exists payload entries stamps,
    received net w city year month api_key payload
    /\ field "days" payload = Some (PList entries)
    /\ entries <> []
    /\ Forall has_required entries
    /\ to_datetime (pd_Series (field_values "datetime" PNone entries)) = Ok stamps
    /\ length stamps = length entries
    /\ index_len df = length entries
    /\ columns df
       = [("Date", map stamp_cell stamps);
          ("Max Temp (°C)", pd_Series (field_values "tempmax" PNone entries));
          ("Min Temp (°C)", pd_Series (field_values "tempmin" PNone entries));
          ("Avg Temp (°C)", pd_Series (field_values "temp" PNone entries));
          ("Conditions", pd_Series (field_values "conditions" PNone entries));
          ("Precip (mm)", pd_Series (field_values "precip" (PInt 0) entries))].
Proof.
  intros Hrun.
  destruct (fetch_success_received _ _ _ _ _ _ _ Hrun) as (payload & Hrec & Hn).
  destruct (normalize_success payload df Hn)
    as (entries & stamps & Hdays & Hne & Hreq & Hdated & ->).
  exists payload, entries, stamps.
  repeat split; try assumption; try reflexivity.
  now apply dates_read_length.
Qed.

Lemma fetch_success_inversion_witness :
  let df :=
    @mk_frame iso_runtime 1
      [("Date", [Stamp (Calendar.mk_datetime 2025 11 1)]);
       ("Max Temp (°C)", [Int64 31]);
       ("Min Temp (°C)", [Int64 24]);
       ("Avg Temp (°C)", [Int64 27]);
       ("Conditions", [Obj (PStr "Rain")]);
       ("Precip (mm)", [Int64 0])] in
  exists payload entries stamps,
    received (serve (PDict [("days", PList [day_entry "2025-11-01" None])]))
      empty_world "Chennai" 2025 11 "key" payload
    /\ field "days" payload = Some (PList entries)
    /\ length stamps = length entries
    /\ index_len df = length entries
    /\ columns df
       = [("Date", map stamp_cell stamps);
          ("Max Temp (°C)", pd_Series (field_values "tempmax" PNone entries));
          ("Min Temp (°C)", pd_Series (field_values "tempmin" PNone entries));
          ("Avg Temp (°C)", pd_Series (field_values "temp" PNone entries));
          ("Conditions", pd_Series (field_values "conditions" PNone entries));
          ("Precip (mm)", pd_Series (field_values "precip" (PInt 0) entries))].
Proof.
  intros df.
  destruct (@fetch_success_inversion iso_runtime
              (serve (PDict [("days", PList [day_entry "2025-11-01" None])]))
              "Chennai" 2025 11 "key" empty_world df eq_refl)
    as (payload & entries & stamps & Hrec & Hdays & _ & _ & _ & Hlen & Hidx & Hcols).
  exists payload, entries, stamps. repeat split; assumption.
Defined.

(** X3.  Every column that the handler reads from the frame (lines 97-114:
    the three temperatures, the precipitation and the date) is a column of
    every frame that [fetch_monthly_data] returns, with one cell per row,
    and the frame has at least one row: none of these reads can raise
    [KeyError]. *)
Theorem handler_columns_present `{Libraries} (net : Network) (city : string)
    (year month : Z) (api_key : string) (w : World) (df : DataFrame) :
  fst (fetch_monthly_data net city year month api_key w) = Ok (Some df) ->
  (0 < index_len df)%nat
  /\ Forall (fun label =>
               exists series,
                 df_getitem df label = Ok series
                 /\ length series = index_len df)
            HANDLER_COLUMNS.
Proof.
  intros Hrun.
  destruct (fetch_success_received _ _ _ _ _ _ _ Hrun) as (payload & _ & Hn).
  destruct (normalize_success payload df Hn)
    as (entries & stamps & _ & Hne & _ & Hdated & ->).
  split.
  - simpl. destruct entries; [congruence | simpl; lia].
  - pose proof (dates_read_length entries stamps Hdated) as Hlen.
    unfold HANDLER_COLUMNS.
    repeat apply List.Forall_cons; try apply List.Forall_nil;
      (eexists; split; [reflexivity|]); simpl; unfold field_values;
      rewrite ?length_pd_Series, !length_map; auto.
Qed.

Lemma handler_columns_present_witness :
  (0 < 1)%nat
  /\ Forall (fun label =>
               exists series,
                 df_getitem
                   (expected_frame [day_entry "2025-11-01" None]
                      [Some (Calendar.mk_datetime 2025 11 1)]) label = Ok series
                 /\ length series = 1%nat)
            HANDLER_COLUMNS.
Proof.
  exact (@handler_columns_present iso_runtime
           (serve (PDict [("days", PList [day_entry "2025-11-01" None])]))
           "Chennai" 2025 11 "key" empty_world
           (expected_frame [day_entry "2025-11-01" None]
              [Some (Calendar.mk_datetime 2025 11 1)])
           eq_refl).
Defined.

(** ** The rows of a success *)

Lemma stored_lookup `{Libraries} (key : string) (dflt : pyval)
    (entries : list pyval) (i : nat) (entry : pyval) :
  entries !! i = Some entry ->
  pd_Series (field_values key dflt entries) !! i
  = Some (stored key dflt entries (default dflt (field key entry))).
Proof.
  intros Hi. unfold pd_Series, stored.
  rewrite list_lookup_fmap. unfold field_values at 2.
  now rewrite list_lookup_fmap, Hi.
Qed.

(** X14.  For every payload whose list of days has at least one entry,
    each with its required fields, and whose column of dates the library
    reads, the fetch returns a frame with exactly one row per entry, in the
    order received: the six columns are those of lines 62-69, each built
    from the values of one field taken in the order of the list (nothing
    sorts them), so that the cell at a position is the value of the entry
    at that position, as the column stores it; and the column of dates is
    what the library read from the dates of the entries, in that order. *)
Theorem well_formed_days_in_order `{Libraries} (net : Network) (city : string)
    (year month : Z) (api_key : string) (w : World)
    (payload : pyval) (entries : list pyval) (stamps : list (option Timestamp)) :
  received net w city year month api_key payload ->
  field "days" payload = Some (PList entries) ->
  entries <> [] ->
  Forall has_required entries ->
  dates_read entries stamps ->
  exists req df,
    fetch_monthly_data net city year month api_key w = (Ok (Some df), after w req [])
    /\ index_len df = length entries
    /\ map fst (columns df)
       = ["Date"; "Max Temp (°C)"; "Min Temp (°C)"; "Avg Temp (°C)"; "Conditions";
          "Precip (mm)"]
    /\ Forall (fun col => length (snd col) = length entries) (columns df)
    /\ column "Date" df = map stamp_cell stamps
    /\ (forall i entry, entries !! i = Some entry ->
          exists date tempmax tempmin temp conditions,
            field "datetime" entry = Some date
            /\ field "tempmax" entry = Some tempmax
            /\ field "tempmin" entry = Some tempmin
            /\ field "temp" entry = Some temp
            /\ field "conditions" entry = Some conditions
            /\ date_column entries !! i = Some (stored "datetime" PNone entries date)
            /\ column "Date" df !! i = stamp_cell <$> stamps !! i
            /\ is_Some (stamps !! i)
            /\ column "Max Temp (°C)" df !! i
               = Some (stored "tempmax" PNone entries tempmax)
            /\ column "Min Temp (°C)" df !! i
               = Some (stored "tempmin" PNone entries tempmin)
            /\ column "Avg Temp (°C)" df !! i
               = Some (stored "temp" PNone entries temp)
            /\ column "Conditions" df !! i
               = Some (stored "conditions" PNone entries conditions)).
Proof.
  intros Hrec Hdays Hne Hreq Hdated.
  destruct (fetch_received _ _ _ _ _ _ _ Hrec) as (req & Hrun).
  rewrite (normalize_days payload entries stamps Hdays Hne Hreq Hdated) in Hrun.
  exists req, (expected_frame entries stamps). split; [exact Hrun|].
  split; [reflexivity|]. split; [reflexivity|].
  split; [now apply expected_frame_lengths|]. split; [reflexivity|].
  intros i entry Hi.
  assert (Hentry : has_required entry).
  { apply (proj1 (Forall_forall _ _) Hreq). eapply list_elem_of_lookup_2. exact Hi. }
  unfold has_required, REQUIRED in Hentry.
  repeat match goal with
         | H : Forall _ (_ :: _) |- _ => apply Forall_cons in H as [[? ?] H]
         end.
  do 5 eexists. do 5 (split; [eassumption|]).
  unfold column, expected_frame, date_column. cbn [columns dict_lookup String.eqb].
  simpl.
  rewrite !(stored_lookup _ _ _ _ _ Hi).
  repeat match goal with
         | H : field _ entry = Some _ |- _ => rewrite H; clear H
         end.
  split; [reflexivity|]. split; [now rewrite list_lookup_fmap|].
  split; [|repeat split].
  apply lookup_lt_is_Some. rewrite (dates_read_length entries stamps Hdated).
  apply lookup_lt_is_Some. eauto.
Qed.

Lemma well_formed_days_in_order_witness :
  exists req df,
    fetch_monthly_data
      (serve (PDict [("days", PList [day_entry "2025-11-01" None;
                                     day_entry "2025-11-02" (Some (PInt 3))])]))
      "Chennai" 2025 11 "key" empty_world
    = (Ok (Some df), after empty_world req [])
    /\ index_len df = 2%nat
    /\ column "Date" df
       = [@Stamp Calendar.datetime (Calendar.mk_datetime 2025 11 1);
          Stamp (Calendar.mk_datetime 2025 11 2)].
Proof.
  destruct (@well_formed_days_in_order iso_runtime
              (serve (PDict [("days", PList [day_entry "2025-11-01" None;
                                             day_entry "2025-11-02" (Some (PInt 3))])]))
              "Chennai" 2025 11 "key" empty_world
              (PDict [("days", PList [day_entry "2025-11-01" None;
                                      day_entry "2025-11-02" (Some (PInt 3))])])
              [day_entry "2025-11-01" None; day_entry "2025-11-02" (Some (PInt 3))]
              [Some (Calendar.mk_datetime 2025 11 1);
               Some (Calendar.mk_datetime 2025 11 2)])
    as (req & df & Hrun & Hlen & _ & _ & Hdates & _).
  - apply received_served.
  - reflexivity.
  - discriminate.
  - repeat (apply List.Forall_cons; [apply day_entry_has_required|]).
    apply List.Forall_nil.
  - reflexivity.
  - exists req, df. repeat split; assumption.
Defined.

(** ** More on the cache *)

(** X4.  An entry of the cache is served only to the very arguments it
    was stored for.  A call does not change what the cache holds for any
    other tuple of location, year, month and credential, and a call for
    which nothing alive is cached sends its own request, also right after
    a call with other arguments (another credential, say) has filled the
    cache. *)
Theorem cache_keys_independent `{Libraries} (net : Network)
    (city city' : string) (year month year' month' : Z) (api_key api_key' : string)
    (t t' : Z) (s : Session) :
  (city, year, month, api_key) <> (city', year', month', api_key') ->
  let s1 := snd (cached_fetch_monthly_data net t city year month api_key s) in
  live_entry s1 (city', year', month', api_key') t'
  = live_entry s (city', year', month', api_key') t'
  /\ (live_entry s (city', year', month', api_key') t' = None ->
      forall range', resolve year' month' = Ok range' ->
        sent (world (snd (cached_fetch_monthly_data net t' city' year' month' api_key' s1)))
        = sent (world s1) ++ [build_request city' range' api_key']).
Proof.
  intros Hne s1.
  assert (Hsame : live_entry s1 (city', year', month', api_key') t'
                  = live_entry s (city', year', month', api_key') t').
  { unfold s1, live_entry.
    destruct (live_entry s (city, year, month, api_key) t) as [entry|] eqn:Hlive.
    - now rewrite (cached_hit _ _ _ _ _ _ _ _ Hlive).
    - rewrite (cached_miss _ _ _ _ _ _ _ Hlive).
      destruct (fetch_monthly_data net city year month api_key (world s))
        as [[v|e] w']; simpl; [|reflexivity].
      now rewrite lookup_insert_ne. }
  split; [exact Hsame|].
  intros Hnone range' Hr. rewrite <- Hsame in Hnone.
  rewrite (cached_miss _ _ _ _ _ _ _ Hnone).
  pose proof (fetch_sent net city' year' month' api_key' (world s1)) as Hsent.
  rewrite Hr in Hsent.
  destruct (fetch_monthly_data net city' year' month' api_key' (world s1))
    as [[v|e] w']; exact Hsent.
Qed.

Lemma cache_keys_independent_witness :
  let net := serve (PDict [("message", PStr "Invalid API key")]) in
  let s0 := mk_session empty_world ∅ in
  let s1 := snd (cached_fetch_monthly_data net 0 "Chennai" 2025 11 "first" s0) in
  length (sent (world (snd (cached_fetch_monthly_data net 1 "Chennai" 2025 11 "second" s1))))
  = 2%nat.
Proof.
  intros net s0 s1.
  destruct (cache_keys_independent net "Chennai" "Chennai" 2025 11 2025 11
              "first" "second" 0 1 s0 ltac:(discriminate)) as [_ Hsent].
  exact (eq_trans
           (f_equal length
              (Hsent eq_refl (mk_range "2025-11-01" "2025-11-30") eq_refl))
           eq_refl).
Defined.

(** X5.  An exception is never cached: when range resolution raises and
    nothing alive is cached for the arguments, the decorated call raises
    the same exception and leaves the session, cache and world, as it
    was, so that every later call raises again. *)
Theorem exceptions_not_cached `{Libraries} (net : Network) (now : Z)
    (city : string) (year month : Z) (api_key : string) (s : Session) (e : PyExn) :
  resolve year month = Raise e ->
  live_entry s (city, year, month, api_key) now = None ->
  cached_fetch_monthly_data net now city year month api_key s = (Raise e, s).
Proof.
  intros Hr Hlive. rewrite (cached_miss _ _ _ _ _ _ _ Hlive).
  rewrite (fetch_raise _ _ _ _ _ _ _ Hr). now destruct s.
Qed.

Lemma exceptions_not_cached_witness :
  cached_fetch_monthly_data (serve PNone) 0 "Chennai" 0 1 "key"
    (mk_session empty_world ∅)
  = (Raise (ValueError "year 0 is out of range"), mk_session empty_world ∅).
Proof.
  exact (@exceptions_not_cached iso_runtime (serve PNone) 0 "Chennai" 0 1 "key"
           (mk_session empty_world ∅) _ eq_refl eq_refl).
Defined.

(** The frames of the cache stay non-empty through a call. *)
Lemma cache_frames_not_empty_step `{Libraries} (net : Network) (now : Z)
    (city : string) (year month : Z) (api_key : string) (s : Session) :
  cache_frames_not_empty s ->
  cache_frames_not_empty
    (snd (cached_fetch_monthly_data net now city year month api_key s))
  /\ forall df,
       fst (cached_fetch_monthly_data net now city year month api_key s) = Ok (Some df) ->
       df_empty df = false.
Proof.
  intros Hinv.
  destruct (live_entry s (city, year, month, api_key) now) as [entry|] eqn:Hlive.
  - rewrite (cached_hit _ _ _ _ _ _ _ _ Hlive). simpl. split; [exact Hinv|].
    intros df [= Hv]. unfold live_entry in Hlive.
    destruct (cache s !! (city, year, month, api_key)) as [entry'|] eqn:Hl;
      [|discriminate].
    destruct (now <? stored_at entry' + TTL); [|discriminate].
    injection Hlive as ->. exact (Hinv _ _ _ Hl Hv).
  - rewrite (cached_miss _ _ _ _ _ _ _ Hlive).
    pose proof (fetch_never_returns_empty net city year month api_key (world s)) as Hne.
    destruct (fetch_monthly_data net city year month api_key (world s))
      as [[v|e] w']; simpl in *.
    + split; [|intros df [= ->]; now apply Hne].
      intros key entry df Hl Hv. simpl in Hl. rewrite lookup_insert in Hl.
      destruct (decide ((city, year, month, api_key) = key)).
      * injection Hl as <-. simpl in Hv. subst v. now apply Hne.
      * exact (Hinv _ _ _ Hl Hv).
    + split; [exact Hinv | discriminate].
Qed.

(** ** The button handler *)

Lemma cached_returns `{Libraries} (net : Network) (now : Z) (city : string)
    (year month : Z) (api_key : string) (s : Session) (range : DateRange) :
  resolve year month = Ok range ->
  exists v, fst (cached_fetch_monthly_data net now city year month api_key s) = Ok v.
Proof.
  intros Hr.
  destruct (live_entry s (city, year, month, api_key) now) as [entry|] eqn:Hlive.
  - rewrite (cached_hit _ _ _ _ _ _ _ _ Hlive). eauto.
  - rewrite (cached_miss _ _ _ _ _ _ _ Hlive), (fetch_run _ _ _ _ _ _ _ Hr).
    destruct (outcome _ _ _); simpl; eauto.
Qed.

(** X6.  From a session whose cached frames are not empty (the empty cache
    is one, and calls keep it so), and for a year of four digits and a month
    in [1, 12], the handler of the button raises nothing up to the table:
    it draws the heading with the name of the month and the year and the
    table exactly when the decorated fetch returns a frame, and stops
    exactly when it returns [None].  The test [not df.empty] of line 87
    never decides. *)
Theorem button_follows_fetch `{Libraries} (net : Network) (now : Z)
    (city : string) (year month : Z) (api_key : string) (s : Session) :
  cache_frames_not_empty s -> 1000 <= year <= 9999 -> 1 <= month <= 12 ->
  let run := cached_fetch_monthly_data net now city year month api_key s in
  cache_frames_not_empty (snd run)
  /\ ((exists df,
         fst run = Ok (Some df)
         /\ fetch_button net now city year month api_key s
            = (Ok (Rendered
                     (nth (Z.to_nat month) MONTH_NAMES ""
                      +:+ " " +:+ PyFormat.str_int year)
                     df),
               snd run))
      \/ (fst run = Ok None
          /\ fetch_button net now city year month api_key s = (Ok Stopped, snd run))).
Proof.
  intros Hinv Hy Hm run.
  destruct (cache_frames_not_empty_step net now city year month api_key s Hinv)
    as [Hinv' Hne].
  split; [exact Hinv'|].
  assert (Hy' : 1 <= year <= 9999) by lia.
  destruct (resolve_reads_back year month Hm (or_intror Hy')) as (range & Hr & _).
  destruct (cached_returns net now city year month api_key s range Hr) as (v & Hv).
  fold run in Hv, Hne. unfold fetch_button. fold run.
  destruct run as [r s']. simpl in *. subst r.
  destruct v as [df|]; [left | right; split; reflexivity].
  exists df. split; [reflexivity|].
  unfold present. rewrite (Hne df eq_refl). simpl negb. cbv iota.
  rewrite new_ok by (pose proof (days_in_month_positive year month Hm); lia).
  reflexivity.
Qed.

Lemma empty_cache_frames_not_empty `{Libraries} (w : World) :
  cache_frames_not_empty (mk_session w ∅).
Proof. intros key entry df Hl. simpl in Hl. now rewrite lookup_empty in Hl. Qed.

Lemma button_follows_fetch_witness :
  fetch_button (serve (PDict [("days", PList [day_entry "2025-11-01" None])]))
    0 "Chennai" 2025 11 "key" (mk_session empty_world ∅)
  = (Ok (Rendered "November 2025"
           (expected_frame [day_entry "2025-11-01" None]
              [Some (Calendar.mk_datetime 2025 11 1)])),
     snd (cached_fetch_monthly_data
            (serve (PDict [("days", PList [day_entry "2025-11-01" None])]))
            0 "Chennai" 2025 11 "key" (mk_session empty_world ∅))).
Proof.
  destruct (@button_follows_fetch iso_runtime
              (serve (PDict [("days", PList [day_entry "2025-11-01" None])]))
              0 "Chennai" 2025 11 "key" (mk_session empty_world ∅)
              (empty_cache_frames_not_empty empty_world)
              ltac:(lia) ltac:(lia)) as [_ [(df & Hdf & Hbutton) | [Hnone _]]].
  - injection Hdf as <-. exact Hbutton.
  - discriminate Hnone.
Defined.

(** X7.  For the month 12 the range does not go through [datetime], so
    the fetch can return a frame for a year outside [1, 9999]; the handler
    then raises at line 88, outside any [try], before it draws anything:
    the [ValueError] of [datetime(year, month, 1)] when the year fits in a
    C [int], and its [OverflowError] when it does not. *)
Theorem december_year_out_of_range_raises `{Libraries} (net : Network) (now : Z)
    (city : string) (year : Z) (api_key : string) (s : Session) (df : DataFrame) :
  cache_frames_not_empty s -> ~ 1 <= year <= 9999 ->
  fst (cached_fetch_monthly_data net now city year 12 api_key s) = Ok (Some df) ->
  (- 2 ^ 31 <= year < 2 ^ 31 ->
   fst (fetch_button net now city year 12 api_key s)
   = Raise (ValueError ("year " +:+ PyFormat.str_int year +:+ " is out of range")))
  /\ (~ - 2 ^ 31 <= year < 2 ^ 31 ->
      exists msg,
        fst (fetch_button net now city year 12 api_key s) = Raise (OverflowError msg)).
Proof.
  intros Hinv Hy Hrun.
  destruct (cache_frames_not_empty_step net now city year 12 api_key s Hinv)
    as [_ Hne].
  specialize (Hne df Hrun). unfold fetch_button.
  destruct (cached_fetch_monthly_data net now city year 12 api_key s) as [r s'].
  simpl in Hrun. subst r. simpl. unfold present. rewrite Hne. simpl negb. cbv iota.
  split.
  - intros Hfit. rewrite new_year_out_of_range by lia. reflexivity.
  - intros Hbig.
    destruct (new_overflow year 12 1 (or_introl Hbig)) as (msg & ->).
    exists msg. reflexivity.
Qed.

Lemma december_year_out_of_range_raises_witness :
  fst (fetch_button (serve (PDict [("days", PList [day_entry "2025-11-01" None])]))
         0 "Chennai" 10000 12 "key" (mk_session empty_world ∅))
  = Raise (ValueError "year 10000 is out of range")
  /\ exists msg,
       fst (fetch_button (serve (PDict [("days", PList [day_entry "2025-11-01" None])]))
              0 "Chennai" (2 ^ 31) 12 "key" (mk_session empty_world ∅))
       = Raise (OverflowError msg).
Proof.
  split.
  - exact (proj1 (@december_year_out_of_range_raises iso_runtime
                    (serve (PDict [("days", PList [day_entry "2025-11-01" None])]))
                    0 "Chennai" 10000 "key" (mk_session empty_world ∅)
                    (expected_frame [day_entry "2025-11-01" None]
                       [Some (Calendar.mk_datetime 2025 11 1)])
                    (empty_cache_frames_not_empty empty_world)
                    ltac:(lia) eq_refl)
             ltac:(lia)).
  - exact (proj2 (@december_year_out_of_range_raises iso_runtime
                    (serve (PDict [("days", PList [day_entry "2025-11-01" None])]))
                    0 "Chennai" (2 ^ 31) "key" (mk_session empty_world ∅)
                    (expected_frame [day_entry "2025-11-01" None]
                       [Some (Calendar.mk_datetime 2025 11 1)])
                    (empty_cache_frames_not_empty empty_world)
                    ltac:(lia) eq_refl)
             ltac:(lia)).
Defined.

(** ** The credential *)

(** X8.  When the secrets store loads, start-up never raises, and the
    script goes on only with a key that is truthy, so never with [None] or
    with the empty text: either the key found in the secrets or the
    environment, with nothing drawn, or the text of the sidebar input.  It
    halts exactly when neither gave a truthy value and the sidebar input is
    empty, after drawing the sidebar header, the input and the warning. *)
Theorem startup_key_is_truthy (store : list (string * pyval))
    (env : list (string * string)) (text : string) :
  let found :=
    default (os_getenv env "WEATHER_API_KEY") (dict_lookup "WEATHER_API_KEY" store) in
  let sidebar := [SidebarHeader "Dev: API Setup";
                  SidebarTextInput "Visual Crossing API Key"] in
  match startup (mk_deployment (Ok store) env text) with
  | (Ok (Continue key), drawn) =>
      py_truthy key = true
      /\ ((key = found /\ drawn = [])
          \/ (py_truthy found = false /\ key = PStr text /\ drawn = sidebar))
  | (Ok Halt, drawn) =>
      py_truthy found = false /\ text = ""
      /\ drawn = sidebar ++ [WarningBox
                               "Please set your API key via secrets/env or sidebar (dev only)."]
  | (Raise _, _) => False
  end.
Proof.
  intros found sidebar. unfold startup. cbn [secrets environ sidebar_text].
  change (default (os_getenv env "WEATHER_API_KEY")
            (dict_lookup "WEATHER_API_KEY" store)) with found.
  clearbody found. subst sidebar.
  destruct (py_truthy found) eqn:Hfound; simpl.
  - split; [exact Hfound | left; split; reflexivity].
  - destruct (String.eqb_spec text "") as [->|Hne]; simpl.
    + repeat split.
    + split; [|right; repeat split].
      simpl. now destruct (String.eqb_spec text "").
Qed.

(** X9.  The sources of the key are tried in a fixed order.  A truthy
    value under WEATHER_API_KEY in the secrets is the key whatever the
    environment and the sidebar hold, and the sidebar is not drawn; without
    that entry in the secrets, a non-empty environment variable is the
    key, again with no sidebar. *)
Theorem startup_precedence (store : list (string * pyval))
    (env : list (string * string)) (text : string) :
  (forall v, dict_lookup "WEATHER_API_KEY" store = Some v -> py_truthy v = true ->
     startup (mk_deployment (Ok store) env text) = (Ok (Continue v), []))
  /\ (forall s, dict_lookup "WEATHER_API_KEY" store = None ->
        dict_lookup "WEATHER_API_KEY" env = Some s -> s <> "" ->
        startup (mk_deployment (Ok store) env text) = (Ok (Continue (PStr s)), [])).
Proof.
  split.
  - intros v Hv Ht. unfold startup. simpl. rewrite Hv. simpl. now rewrite Ht.
  - intros s Hs He Hne. unfold startup, os_getenv. simpl. rewrite Hs, He. simpl.
    destruct (String.eqb_spec s ""); [contradiction | reflexivity].
Qed.

Lemma startup_precedence_witness :
  startup (mk_deployment (Ok [("WEATHER_API_KEY", PStr "from-secrets")])
             [("WEATHER_API_KEY", "from-env")] "typed")
  = (Ok (Continue (PStr "from-secrets")), [])
  /\ startup (mk_deployment (Ok []) [("WEATHER_API_KEY", "from-env")] "typed")
     = (Ok (Continue (PStr "from-env")), []).
Proof.
  split.
  - exact (proj1 (startup_precedence [("WEATHER_API_KEY", PStr "from-secrets")]
                    [("WEATHER_API_KEY", "from-env")] "typed")
             (PStr "from-secrets") eq_refl eq_refl).
  - exact (proj2 (startup_precedence [] [("WEATHER_API_KEY", "from-env")] "typed")
             "from-env" eq_refl eq_refl ltac:(discriminate)).
Defined.

(** X10.  A value that is present in the secrets under WEATHER_API_KEY but
    falsy (the empty text, say) hides the environment variable: the
    default of [st.secrets.get] is only used for a missing entry, so the
    environment is not consulted, and the script asks the sidebar, halting
    exactly when its input is empty. *)
Theorem falsy_secret_hides_environment (store : list (string * pyval))
    (env : list (string * string)) (text : string) (v : pyval) :
  dict_lookup "WEATHER_API_KEY" store = Some v -> py_truthy v = false ->
  startup (mk_deployment (Ok store) env text)
  = startup (mk_deployment (Ok store) [] text)
  /\ (text <> "" ->
      fst (startup (mk_deployment (Ok store) env text)) = Ok (Continue (PStr text)))
  /\ (text = "" -> fst (startup (mk_deployment (Ok store) env text)) = Ok Halt).
Proof.
  intros Hv Ht. unfold startup. simpl. rewrite Hv. simpl. rewrite Ht. simpl.
  split; [reflexivity|].
  destruct (String.eqb_spec text ""); simpl; split; intros; congruence.
Qed.

Lemma falsy_secret_hides_environment_witness :
  fst (startup (mk_deployment (Ok [("WEATHER_API_KEY", PStr "")])
                  [("WEATHER_API_KEY", "from-env")] ""))
  = Ok Halt.
Proof.
  exact (proj2 (proj2 (falsy_secret_hides_environment
                         [("WEATHER_API_KEY", PStr "")]
                         [("WEATHER_API_KEY", "from-env")] "" (PStr "")
                         eq_refl eq_refl))
           eq_refl).
Defined.

(** ** The month selector *)

(** X11.  The label function of the month selector returns the English
    name of the month for every option 1 to 12, names that differ from one
    option to the other.  For any other number it raises: the
    [ValueError] of [datetime] when the number fits in a C [int], and its
    [OverflowError] when it does not. *)
Theorem month_label_spec (x : Z) :
  (1 <= x <= 12 ->
   month_label x = Ok (nth (Z.to_nat x) MONTH_NAMES "")
   /\ forall y, 1 <= y <= 12 -> month_label y = month_label x -> y = x)
  /\ (~ 1 <= x <= 12 -> - 2 ^ 31 <= x < 2 ^ 31 ->
      month_label x = Raise (ValueError "month must be in 1..12"))
  /\ (~ - 2 ^ 31 <= x < 2 ^ 31 ->
      exists msg, month_label x = Raise (OverflowError msg)).
Proof.
  split; [|split].
  - intros Hx.
    assert (Hcase : forall z, 1 <= z <= 12 ->
              month_label z = Ok (nth (Z.to_nat z) MONTH_NAMES "")).
    { intros z Hz. unfold month_label.
      rewrite new_ok by (pose proof (days_in_month_positive 2023 z Hz); lia).
      reflexivity. }
    split; [now apply Hcase|].
    intros y Hy. rewrite (Hcase x Hx), (Hcase y Hy).
    pose proof (months_spec x Hx) as Hxin. pose proof (months_spec y Hy) as Hyin.
    unfold months in Hxin, Hyin. simpl in Hxin, Hyin.
    repeat (destruct Hxin as [<-|Hxin]; [|]);
      try (destruct Hxin);
      repeat (destruct Hyin as [<-|Hyin]; [|]);
      try (destruct Hyin); intros Heq; try reflexivity; discriminate Heq.
  - intros Hx Hfit. unfold month_label.
    rewrite new_month_out_of_range by lia. reflexivity.
  - intros Hbig. unfold month_label.
    destruct (new_overflow 2023 x 1 (or_intror (or_introl Hbig))) as (msg & ->).
    exists msg. reflexivity.
Qed.

Lemma month_label_spec_witness :
  month_label 11 = Ok "November"
  /\ month_label 13 = Raise (ValueError "month must be in 1..12")
  /\ exists msg, month_label (2 ^ 31) = Raise (OverflowError msg).
Proof.
  split; [|split].
  - exact (proj1 (proj1 (month_label_spec 11) ltac:(lia))).
  - exact (proj1 (proj2 (month_label_spec 13)) ltac:(lia) ltac:(lia)).
  - exact (proj2 (proj2 (month_label_spec (2 ^ 31))) ltac:(lia)).
Defined.

(** ** A body that is not JSON *)

(** X13.  When the request goes through with a status outside the 400s
    and 500s but the body cannot be decoded, the exception of
    [response.json()] is caught: the fetch returns [None] after one request
    and one message, "API Request Failed: ..." when the exception belongs to
    the [requests] library and "Unexpected Error: ..." otherwise. *)
Theorem undecodable_body_reported `{Libraries} (net : Network) (city : string)
    (year month : Z) (api_key : string) (w : World) (range : DateRange)
    (response : Response) (e : PyExn) :
  resolve year month = Ok range ->
  net (length (sent w)) (build_request city range api_key) = Ok response ->
  http_error_msg response = None ->
  json response = Raise e ->
  fetch_monthly_data net city year month api_key w
  = (Ok None,
     mk_world (sent w ++ [build_request city range api_key])
       (shown w
        ++ [if is_RequestException e
            then "API Request Failed: " +:+ exn_str e +:+ ". Check city name or API key."
            else "Unexpected Error: " +:+ exn_str e])).
Proof.
  intros Hr Hnet Hstatus Hjson. rewrite (fetch_run _ _ _ _ _ _ _ Hr).
  unfold outcome, raise_for_status. rewrite Hnet. simpl. rewrite Hstatus. simpl.
  rewrite Hjson. reflexivity.
Qed.

Lemma undecodable_body_reported_witness :
  fetch_monthly_data
    (fun _ _ => Ok (mk_response 200 "OK" ""
                      (Raise (RequestException "Expecting value: line 1 column 1 (char 0)"))))
    "Chennai" 2025 11 "key" empty_world
  = (Ok None,
     mk_world [build_request "Chennai" (mk_range "2025-11-01" "2025-11-30") "key"]
       ["API Request Failed: Expecting value: line 1 column 1 (char 0). Check city name or API key."]).
Proof.
  exact (@undecodable_body_reported iso_runtime
           (fun _ _ => Ok (mk_response 200 "OK" ""
                             (Raise (RequestException
                                       "Expecting value: line 1 column 1 (char 0)"))))
           "Chennai" 2025 11 "key" empty_world
           (mk_range "2025-11-01" "2025-11-30")
           (mk_response 200 "OK" ""
              (Raise (RequestException "Expecting value: line 1 column 1 (char 0)")))
           (RequestException "Expecting value: line 1 column 1 (char 0)")
           eq_refl eq_refl eq_refl eq_refl).
Defined.

(** ** Months outside 1 to 12 *)

Lemma year_ends_checked : forallb year_end_ok (years_from 2 399) = true.
Proof. vm_compute. reflexivity. Qed.

(** [datetime(y, 1, 1) - timedelta(days=1)] is the 31st of December of the
    year before. *)
Lemma day_before_new_year (y : Z) :
  2 <= y <= 9999 ->
  Calendar.sub_days (Calendar.mk_datetime y 1 1) 1
  = Ok (Calendar.mk_datetime (y - 1) 12 31).
Proof.
  intros Hy.
  pose proof (Z_div_mod_eq_full (y - 1) 400) as Hsplit.
  pose proof (Z.mod_pos_bound (y - 1) 400 ltac:(lia)) as Hr.
  set (q := (y - 1) / 400) in *. set (r := (y - 1) mod 400) in *.
  clearbody q r.
  assert (Hq : 0 <= q <= 24) by lia.
  unfold Calendar.sub_days, Calendar.toordinal. simpl.
  set (n0 := Calendar.ymd2ord y 1 1 - 1).
  assert (Hn0 : n0 = Calendar.DI400Y * q + (Calendar.ymd2ord (r + 1) 1 1 - 1)).
  { unfold n0. replace y with (400 * q + (r + 1)) at 1 by lia.
    rewrite ymd2ord_cycle. lia. }
  clearbody n0. subst n0.
  destruct (Z.eq_dec r 0) as [->|Hr0].
  - assert (Hq1 : 1 <= q) by lia.
    replace (Calendar.DI400Y * q + (Calendar.ymd2ord (0 + 1) 1 1 - 1))
      with (Calendar.DI400Y * (q - 1) + Calendar.DI400Y)
      by (change (Calendar.ymd2ord (0 + 1) 1 1) with 1; lia).
    replace ((0 <? Calendar.DI400Y * (q - 1) + Calendar.DI400Y)
             && (Calendar.DI400Y * (q - 1) + Calendar.DI400Y <=? Calendar.MAXORDINAL))
      with true
      by (symmetry; apply andb_true_iff; split;
          [apply Z.ltb_lt | apply Z.leb_le];
          unfold Calendar.DI400Y, Calendar.MAXORDINAL; lia).
    rewrite ord2ymd_cycle by (unfold Calendar.DI400Y; lia).
    change (Calendar.ord2ymd Calendar.DI400Y) with (400, 12, 31).
    cbv iota beta. do 2 f_equal. lia.
  - assert (Hin : In (r + 1) (years_from 2 399)) by (apply years_from_spec; lia).
    pose proof year_ends_checked as Hall. rewrite forallb_forall in Hall.
    specialize (Hall (r + 1) Hin). unfold year_end_ok in Hall. cbv zeta in Hall.
    set (n := Calendar.ymd2ord (r + 1) 1 1 - 1) in Hall.
    destruct (Calendar.ord2ymd n) as [[y1 m1] d1] eqn:Hord.
    rewrite !andb_true_iff, orb_true_iff, !Z.eqb_eq, Z.ltb_lt, !Z.leb_le in Hall.
    destruct Hall as [[[Hn0 Hn1] Hn2] [[-> ->] ->]].
    fold n.
    replace ((0 <? Calendar.DI400Y * q + n)
             && (Calendar.DI400Y * q + n <=? Calendar.MAXORDINAL)) with true
      by (symmetry; apply andb_true_iff; split;
          [apply Z.ltb_lt | apply Z.leb_le];
          unfold Calendar.DI400Y, Calendar.MAXORDINAL in *; lia).
    rewrite ord2ymd_cycle by lia. rewrite Hord. cbv iota beta.
    do 2 f_equal. lia.
Qed.

(** X12.  Range resolution does not check the month.  For a year in
    [1, 9999], a month below 0 or above 12 ends in an exception: the
    [ValueError] of [datetime] when the next month fits in a C [int], its
    [OverflowError] when it does not, and the [ValueError] of the limit on
    digits when the month cannot be written.  The month 0 is accepted: the
    start date is written with the month 00 and the end date is the 31st of
    December of the year before, here for the years whose predecessor has
    four digits (for the year 1 the subtraction overflows instead). *)
Theorem resolve_month_out_of_range (year month : Z) :
  1 <= year <= 9999 ->
  (month < 0 \/ 12 < month -> - 2 ^ 31 <= month + 1 < 2 ^ 31 ->
   resolve year month = Raise (ValueError "month must be in 1..12"))
  /\ (~ - 2 ^ 31 <= month + 1 < 2 ^ 31 -> Z.abs month < 10 ^ 4300 ->
      exists msg, resolve year month = Raise (OverflowError msg))
  /\ (10 ^ 4300 <= Z.abs month ->
      resolve year month = Raise (ValueError PyFormat.DIGITS_EXCEEDED))
  /\ (month = 0 -> 1001 <= year ->
      resolve year month
      = Ok (mk_range (PyFormat.str_int year +:+ "-00-01")
              (DateText.yyyy_mm_dd (year - 1) 12 31)))
  /\ (month = 0 -> year = 1 ->
      resolve year month = Raise (OverflowError "date value out of range")).
Proof.
  intros Hy. rewrite <- str_limit_eq.
  assert (Hyear : PyFormat.format_int year = Ok (PyFormat.str_int year))
    by (apply format_int_small; lia).
  split; [|split; [|split; [|split]]].
  - intros Hm Hfit. unfold resolve.
    rewrite Hyear, (format_int_0d_small 2 month) by lia. cbn [rbind].
    destruct (Z.eqb_spec month 12); [lia|].
    rewrite new_month_out_of_range by lia. reflexivity.
  - intros Hbig Hm. unfold resolve.
    rewrite Hyear, (format_int_0d_ok 2 month Hm). cbn [rbind].
    destruct (Z.eqb_spec month 12); [lia|].
    destruct (new_overflow year (month + 1) 1 (or_intror (or_introl Hbig)))
      as (msg & ->).
    exists msg. reflexivity.
  - intros Hm. unfold resolve.
    rewrite Hyear, (format_int_0d_raise 2 month Hm). reflexivity.
  - intros -> Hy2. unfold resolve. rewrite Hyear. cbn [rbind].
    change (PyFormat.format_int_0d 2 0) with (@Ok string "00"). cbn [rbind].
    simpl (0 =? 12). cbv iota. change (0 + 1) with 1.
    rewrite new_ok by (try lia; pose proof (days_in_month_positive year 1); lia).
    cbn [rbind]. rewrite (day_before_new_year year) by lia. cbn [rbind].
    unfold Calendar.strftime_ymd, DateText.yyyy_mm_dd. cbn [Calendar.year Calendar.month Calendar.day].
    destruct (year_text_spec (year - 1) ltac:(lia)) as (_ & _ & ->). reflexivity.
  - intros -> ->. reflexivity.
Qed.

Lemma resolve_month_out_of_range_witness :
  resolve 2025 13 = Raise (ValueError "month must be in 1..12")
  /\ (exists msg, resolve 2025 (2 ^ 31 - 1) = Raise (OverflowError msg))
  /\ resolve 2025 0 = Ok (mk_range "2025-00-01" "2024-12-31").
Proof.
  split; [|split].
  - exact (proj1 (resolve_month_out_of_range 2025 13 ltac:(lia))
             ltac:(lia) ltac:(lia)).
  - apply (proj1 (proj2 (resolve_month_out_of_range 2025 (2 ^ 31 - 1) ltac:(lia)))).
    + lia.
    + apply Z.ltb_lt. vm_compute. reflexivity.
  - exact (proj1 (proj2 (proj2 (proj2 (resolve_month_out_of_range 2025 0 ltac:(lia)))))
             eq_refl ltac:(lia)).
Defined.
